(** * BDE DocuSeal service: a shallow embedding of the gateway, the provider
    client and the notifier, with the properties of the specification.

    The Python sources are [main.py], [services/docuseal_client.py] and
    [services/email_service.py].  Python values are an inductive type, dicts
    are finite maps, exceptions are an explicit outcome, and the three things
    the code talks to (the provider's HTTP API, the SMTP transport and the
    clock) are oracles that answer from the history of earlier interactions.
    Logging is not modelled: no result depends on it.  The properties of the
    specification come first; those of the rest of the code (the template
    listing, the remaining endpoints, what each operation sends) follow; the
    client without a token, which involves every operation, comes last. *)

From stdpp Require Import gmap strings list fin_maps pretty.
From Stdlib Require Import ZArith QArith.

#[local] Open Scope string_scope.
#[local] Open Scope Z_scope.

(** ** Python values and exceptions *)

Module Py.

(** Values as [json] decoding produces them and as the code builds them.
    A [str] is kept as its UTF-8 bytes. *)
#[warning="-register-all"]
Inductive value : Type :=
| VNone
| VBool (b : bool)
| VInt (z : Z)
| VFloat (q : Q)
| VStr (s : string)
| VList (l : list value)
| VDict (d : gmap string value).

(** Exceptions, all of them subclasses of [Exception].  [Error name msg] is
    any exception other than the two the code names in an [except] clause;
    [msg] is its [str]. *)
Inductive exn : Type :=
| HTTPException (status_code : Z) (detail : string)
| TimeoutException (msg : string)
| Error (name : string) (msg : string).

Inductive outcome (A : Type) : Type :=
| Ret (a : A)
| Raise (e : exn).
Arguments Ret {A} a.
Arguments Raise {A} e.

(** [bool(v)] *)
Definition truthy (v : value) : bool :=
  match v with
  | VNone => false
  | VBool b => b
  | VInt z => negb (z =? 0)
  | VFloat q => negb (Qeq_bool q 0)
  | VStr s => negb (String.eqb s "")
  | VList l => match l with [] => false | _ :: _ => true end
  | VDict d => negb (bool_decide (d = ∅))
  end.

(** [type(v).__name__] *)
Definition type_name (v : value) : string :=
  match v with
  | VNone => "NoneType"
  | VBool _ => "bool"
  | VInt _ => "int"
  | VFloat _ => "float"
  | VStr _ => "str"
  | VList _ => "list"
  | VDict _ => "dict"
  end.

(** [v == s] for a string literal [s] *)
Definition eq_str (v : value) (s : string) : bool :=
  match v with
  | VStr t => String.eqb t s
  | _ => false
  end.

(** [d.get(k)] and [d.get(k, dflt)] on a dict *)
Definition dict_get (d : gmap string value) (k : string) (dflt : value) : value :=
  default dflt (d !! k).

(** [v.get(k, dflt)] on a value of unknown type: only a dict has [get]. *)
Definition get (v : value) (k : string) (dflt : value) : outcome value :=
  match v with
  | VDict d => Ret (dict_get d k dflt)
  | _ => Raise (Error "AttributeError"
                  ("'" +:+ type_name v +:+ "' object has no attribute 'get'"))
  end.

(** [v[0]].  On a [str] the result is its first character; the model keeps
    the first byte, and every use in the sources calls [get] on the result,
    which fails on any [str]. *)
Definition subscript0 (v : value) : outcome value :=
  match v with
  | VList [] => Raise (Error "IndexError" "list index out of range")
  | VList (x :: _) => Ret x
  | VStr "" => Raise (Error "IndexError" "string index out of range")
  | VStr (String c _) => Ret (VStr (String c ""))
  | VDict _ => Raise (Error "KeyError" "0")
  | _ => Raise (Error "TypeError"
                  ("'" +:+ type_name v +:+ "' object is not subscriptable"))
  end.

(** [f"{v}"] for the values an f-string of the sources can meet.  For a
    float, a list or a dict Python prints its [repr]; the model prints the
    type name, and no message built from it is ever sent: the text part of
    the same message fails on such a value. *)
Definition format (v : value) : string :=
  match v with
  | VNone => "None"
  | VBool true => "True"
  | VBool false => "False"
  | VInt z => pretty z
  | VStr s => s
  | _ => "<" +:+ type_name v +:+ ">"
  end.

End Py.
Export Py.

(** ** Substrings *)

(** [occurs m s] is Python's [m in s]. *)
Fixpoint occurs (m s : string) : bool :=
  String.prefix m s ||
  match s with
  | "" => false
  | String _ s' => occurs m s'
  end.

Definition contains (s m : string) : Prop :=
  ∃ pre post, s = pre +:+ m +:+ post.

(** [s.rstrip('/')] *)
Fixpoint rstrip_slash (s : string) : string :=
  match s with
  | "" => ""
  | String c s' =>
      match rstrip_slash s' with
      | "" => if String.eqb (String c "") "/" then "" else String c ""
      | t => String c t
      end
  end.

(** [s.lower()] on ASCII letters, as httpx applies it to header names *)
Definition lower_ascii (c : Ascii.ascii) : Ascii.ascii :=
  let n := Ascii.nat_of_ascii c in
  if ((65 <=? n) && (n <=? 90))%nat then Ascii.ascii_of_nat (n + 32) else c.

Fixpoint lower (s : string) : string :=
  match s with
  | "" => ""
  | String c s' => String (lower_ascii c) (lower s')
  end.

(** ** The world outside the process *)

Module World.

Inductive month : Type :=
| January | February | March | April | May | June
| July | August | September | October | November | December.

(** A reading of [datetime.utcnow()] *)
Record datetime : Type := {
  year : N;
  month_of : month;
  day : N;
  hour : N;
  minute : N;
  second : N;
  microsecond : N
}.

Inductive http_method : Type := GET | POST | DELETE.

(** One call on an [httpx.AsyncClient] *)
Record request : Type := {
  req_method : http_method;
  req_url : string;
  req_headers : gmap string string;
  req_json : option value;
  req_timeout : Q
}.

(** An [httpx.Response].  [json] is what [response.json()] gives: the
    decoded body, or the message of the exception the decoder raises.
    [headers] is keyed by lower-cased names, as httpx looks them up. *)
Record response : Type := {
  status_code : Z;
  text : string;
  json : string + value;
  headers : gmap string string;
  content : list Byte.byte;
  elapsed_seconds : Q
}.

Inductive http_result : Type :=
| Responded (r : response)
| TimedOut (msg : string)
| Failed (name : string) (msg : string).

(** The message handed to [server.send_message] *)
Record email_message : Type := {
  msg_subject : string;
  msg_from : string;
  msg_to : option string;
  msg_text : string;
  msg_html : string
}.

(** One [with smtplib.SMTP(host, port) as server] block: connect, STARTTLS,
    login and, when [ss_message] is present, send_message; the session is
    closed on every exit. *)
Record smtp_session : Type := {
  ss_host : string;
  ss_port : Z;
  ss_username : string;
  ss_password : string;
  ss_message : option email_message
}.

Inductive event : Type :=
| EvHttp (rq : request) (res : http_result)
| EvSmtp (ss : smtp_session) (res : option string)
| EvClock (now : datetime).

(** The oracles.  [smtp] answers [None] when the whole block ran and
    [Some msg] when one of its steps raised an exception whose [str] is
    [msg].  [http_exception_str] is the framework's [str] of an
    [HTTPException], which depends on the installed Starlette. *)
Record env : Type := {
  http : list event → request → http_result;
  smtp : list event → smtp_session → option string;
  clock : list event → datetime;
  http_exception_str : Z → string → string
}.

(** A task queued on the request's [BackgroundTasks]: the function and its
    arguments. *)
Inductive task : Type :=
| send_completion_notification_task (submission_id : string)
                                    (signer_email : option string).

Record state : Type := {
  history : list event;
  background_tasks : list task
}.

Definition record (ev : event) (s : state) : state :=
  {| history := history s ++ [ev]; background_tasks := background_tasks s |}.

Definition M (A : Type) : Type := env → state → outcome A * state.

#[global] Instance M_ret : MRet M := λ A a _ s, (Ret a, s).

#[global] Instance M_bind : MBind M := λ A B f m e s,
  match m e s with
  | (Ret a, s') => f a e s'
  | (Raise x, s') => (Raise x, s')
  end.

Definition raise {A : Type} (x : exn) : M A := λ _ s, (Raise x, s).

Definition lift {A : Type} (o : outcome A) : M A := λ _ s, (o, s).

(** [try: body  except Exception as e: handler e] *)
Definition try_except {A : Type} (body : M A) (handler : exn → M A) : M A :=
  λ e s,
    match body e s with
    | (Ret a, s') => (Ret a, s')
    | (Raise x, s') => handler x e s'
    end.

(** [str(e)] *)
Definition str (x : exn) : M string := λ e s,
  (Ret match x with
       | HTTPException c d => http_exception_str e c d
       | TimeoutException msg => msg
       | Error _ msg => msg
       end, s).

(** [await client.request(...)] inside [async with httpx.AsyncClient] *)
Definition send (rq : request) : M response := λ e s,
  let res := http e (history s) rq in
  let s' := record (EvHttp rq res) s in
  match res with
  | Responded r => (Ret r, s')
  | TimedOut msg => (Raise (TimeoutException msg), s')
  | Failed name msg => (Raise (Error name msg), s')
  end.

(** [response.json()] *)
Definition json_of (r : response) : M value :=
  match json r with
  | inr v => mret v
  | inl msg => raise (Error "JSONDecodeError" msg)
  end.

(** [response.headers.get(name, dflt)] *)
Definition header_get (r : response) (name dflt : string) : string :=
  default dflt (headers r !! lower name).

(** The SMTP block; an exception inside it surfaces after the session is
    closed. *)
Definition smtp_run (ss : smtp_session) : M unit := λ e s,
  let res := smtp e (history s) ss in
  let s' := record (EvSmtp ss res) s in
  match res with
  | None => (Ret tt, s')
  | Some msg => (Raise (Error "SMTPException" msg), s')
  end.

(** [datetime.utcnow()] *)
Definition utcnow : M datetime := λ e s,
  let now := clock e (history s) in
  (Ret now, record (EvClock now) s).

(** [background_tasks.add_task(...)] appends to the queue. *)
Definition add_task (t : task) : M unit := λ _ s,
  (Ret tt, {| history := history s;
              background_tasks := background_tasks s ++ [t] |}).

End World.
Export World.

(** ** services/docuseal_client.py *)

Module DocusealClient.

Record DocuSealClient : Type := {
  base_url : string;
  api_token : string;
  timeout : Q
}.

(** [__init__]: the empty token is only logged. *)
Definition init (base_url api_token : string) : DocuSealClient :=
  {| base_url := rstrip_slash base_url;
     api_token := api_token;
     timeout := inject_Z 30 |}.

Definition auth_headers (self : DocuSealClient) : gmap string string :=
  {[ "X-Auth-Token" := api_token self ]}.

Definition get_request (self : DocuSealClient) (url : string) : request :=
  {| req_method := GET; req_url := url; req_headers := auth_headers self;
     req_json := None; req_timeout := timeout self |}.

Definition health_check (self : DocuSealClient) : M (gmap string value) :=
  if negb (truthy (VStr (api_token self))) then
    mret {[ "status" := VStr "error";
            "error" := VStr "API token not configured" ]}
  else
    try_except
      (response ← send (get_request self (base_url self +:+ "/api/templates"));
       if status_code response =? 200 then
         mret {[ "status" := VStr "healthy";
                 "response_time_ms" :=
                   VFloat (Qmult (elapsed_seconds response) (inject_Z 1000));
                 "api_version" :=
                   VStr (header_get response "X-API-Version" "unknown") ]}
       else
         mret {[ "status" := VStr "error";
                 "error" := VStr ("HTTP " +:+ pretty (status_code response)
                                  +:+ ": " +:+ text response) ]})
      (λ e,
         match e with
         | TimeoutException _ =>
             mret {[ "status" := VStr "error";
                     "error" := VStr "Connection timeout" ]}
         | _ =>
             msg ← str e;
             mret {[ "status" := VStr "error"; "error" := VStr msg ]}
         end).

Definition create_payload (template_id customer_email customer_name : string)
    (pre_filled_data : option (gmap string value)) : gmap string value :=
  let payload : gmap string value :=
    {[ "template_id" := VStr template_id;
       "send_email" := VBool true;
       "submitters" :=
         VList [VDict {[ "role" := VStr "Customer";
                         "email" := VStr customer_email;
                         "name" := VStr customer_name ]}] ]} in
  match pre_filled_data with
  | Some d => if truthy (VDict d) then <["fields" := VDict d]> payload
              else payload
  | None => payload
  end.

Definition create_request (self : DocuSealClient)
    (template_id customer_email customer_name : string)
    (pre_filled_data : option (gmap string value)) : request :=
  {| req_method := POST;
     req_url := base_url self +:+ "/api/submissions";
     req_headers := {[ "X-Auth-Token" := api_token self;
                       "Content-Type" := "application/json" ]};
     req_json := Some (VDict (create_payload template_id customer_email
                                customer_name pre_filled_data));
     req_timeout := timeout self |}.

Definition create_submission (self : DocuSealClient)
    (template_id customer_email customer_name : string)
    (pre_filled_data : option (gmap string value)) : M (gmap string value) :=
  try_except
    (response ← send (create_request self template_id customer_email
                        customer_name pre_filled_data);
     if status_code response =? 201 then
       result ← json_of response;
       submission_id ← lift (get result "id" VNone);
       submitters ← lift (get result "submitters" (VList [VDict ∅]));
       first ← lift (subscript0 submitters);
       signing_url ← lift (get first "embed_src" VNone);
       mret {[ "success" := VBool true;
               "submission_id" := submission_id;
               "signing_url" := signing_url;
               "email_sent" := VBool true ]}
     else
       mret {[ "success" := VBool false;
               "error" := VStr ("HTTP " +:+ pretty (status_code response)
                                +:+ ": " +:+ text response) ]})
    (λ e,
       match e with
       | TimeoutException _ =>
           mret {[ "success" := VBool false;
                   "error" := VStr "DocuSeal API timeout" ]}
       | _ =>
           msg ← str e;
           mret {[ "success" := VBool false; "error" := VStr msg ]}
       end).

Definition status_request (self : DocuSealClient) (submission_id : string)
    : request :=
  get_request self (base_url self +:+ "/api/submissions/" +:+ submission_id).

Definition get_submission_status (self : DocuSealClient)
    (submission_id : string) : M (gmap string value) :=
  try_except
    (response ← send (status_request self submission_id);
     if status_code response =? 200 then
       result ← json_of response;
       status ← lift (get result "status" VNone);
       completed_at ← lift (get result "completed_at" VNone);
       documents ← lift (get result "documents" (VList [VDict ∅]));
       document ← lift (subscript0 documents);
       document_url ← lift (get document "url" VNone);
       submitters ← lift (get result "submitters" (VList [VDict ∅]));
       submitter ← lift (subscript0 submitters);
       signer_email ← lift (get submitter "email" VNone);
       template ← lift (get result "template" (VDict ∅));
       template_name ← lift (get template "name" VNone);
       mret {[ "status" := status;
               "completed_at" := completed_at;
               "document_url" := document_url;
               "signer_email" := signer_email;
               "template_name" := template_name ]}
     else
       raise (HTTPException (status_code response)
                ("DocuSeal API error: " +:+ text response)))
    (λ e,
       match e with
       | TimeoutException _ =>
           raise (HTTPException 504 "DocuSeal API timeout")
       | HTTPException _ _ => raise e
       | _ =>
           msg ← str e;
           raise (HTTPException 500 ("DocuSeal error: " +:+ msg))
       end).

(** [await client.get(document_url, ...)]: httpx refuses a URL that is not
    a [str] before any request is made. *)
Definition fetch (self : DocuSealClient) (document_url : value) : M response :=
  match document_url with
  | VStr url => send (get_request self url)
  | _ => raise (Error "TypeError"
                  ("Invalid type for url.  Expected str or httpx.URL, got "
                   +:+ type_name document_url))
  end.

Definition download_document (self : DocuSealClient)
    (submission_id : string) : M (option (gmap string value)) :=
  try_except
    (status ← get_submission_status self submission_id;
     if negb (eq_str (dict_get status "status" VNone) "completed") then
       mret None
     else
       let document_url := dict_get status "document_url" VNone in
       if negb (truthy document_url) then mret None
       else
         response ← fetch self document_url;
         if status_code response =? 200 then
           mret (Some {[ "download_url" := document_url;
                         "filename" :=
                           VStr ("document_" +:+ submission_id +:+ ".pdf");
                         "size_bytes" :=
                           VInt (Z.of_nat (length (content response)));
                         "content_type" :=
                           VStr (header_get response "content-type"
                                   "application/pdf") ]})
         else mret None)
    (λ _, mret None).

(** The result is the decoded body as it is, or [None]. *)
Definition get_template (self : DocuSealClient)
    (template_id : string) : M value :=
  try_except
    (response ← send (get_request self
                        (base_url self +:+ "/api/templates/" +:+ template_id));
     if status_code response =? 200 then json_of response
     else mret VNone)
    (λ _, mret VNone).

Definition cancel_submission (self : DocuSealClient)
    (submission_id : string) : M bool :=
  try_except
    (response ← send {| req_method := DELETE;
                        req_url := base_url self +:+ "/api/submissions/"
                                   +:+ submission_id;
                        req_headers := auth_headers self;
                        req_json := None;
                        req_timeout := timeout self |};
     mret (status_code response =? 200))
    (λ _, mret false).

End DocusealClient.


(** ** String literals that hold a double quote *)

(** The templates of the notifier hold double quotes.  Their literals are
    written here with a backtick in place of each double quote (the sources
    have no backtick), and [quoted] puts the double quotes back. *)
Definition quoted_char (c : Ascii.ascii) : Ascii.ascii :=
  if Ascii.eqb c (Ascii.ascii_of_nat 96) then Ascii.ascii_of_nat 34 else c.

Fixpoint quoted (s : string) : string :=
  match s with
  | "" => ""
  | String c s' => String (quoted_char c) (quoted s')
  end.

(** ** Formatting a clock reading *)

Module Datetime.

Definition digit (n : nat) : string :=
  match n with
  | 0%nat => "0" | 1%nat => "1" | 2%nat => "2" | 3%nat => "3" | 4%nat => "4"
  | 5%nat => "5" | 6%nat => "6" | 7%nat => "7" | 8%nat => "8" | _ => "9"
  end.

(** Zero-padded decimal fields.  A [datetime] keeps its fields in range
    (year 1..9999, hour 0..23, ...), so no digit is lost. *)
Definition pad2 (n : N) : string :=
  (digit (N.to_nat ((n / 10) `mod` 10)) +:+ digit (N.to_nat (n `mod` 10)))%N.

Definition pad4 (n : N) : string :=
  (pad2 (n / 100) +:+ pad2 (n `mod` 100))%N.

Definition pad6 (n : N) : string :=
  (pad2 (n / 10000) +:+ pad4 (n `mod` 10000))%N.

Definition month_name (m : month) : string :=
  match m with
  | January => "January" | February => "February" | March => "March"
  | April => "April" | May => "May" | June => "June" | July => "July"
  | August => "August" | September => "September" | October => "October"
  | November => "November" | December => "December"
  end.

Definition month_number (m : month) : N :=
  match m with
  | January => 1 | February => 2 | March => 3 | April => 4 | May => 5
  | June => 6 | July => 7 | August => 8 | September => 9 | October => 10
  | November => 11 | December => 12
  end%N.

(** [%I]: the hour on the 12-hour clock *)
Definition hour12 (h : N) : N :=
  (if h `mod` 12 =? 0 then 12 else h `mod` 12)%N.

(** [%p] *)
Definition am_pm (h : N) : string :=
  if (h <? 12)%N then "AM" else "PM".

(** [t.strftime('%B %d, %Y at %I:%M %p UTC')] in the C locale *)
Definition strftime (t : datetime) : string :=
  month_name (month_of t) +:+ " " +:+ pad2 (day t) +:+ ", " +:+ pad4 (year t)
  +:+ " at " +:+ pad2 (hour12 (hour t)) +:+ ":" +:+ pad2 (minute t)
  +:+ " " +:+ am_pm (hour t) +:+ " UTC".

(** [t.isoformat()] *)
Definition isoformat (t : datetime) : string :=
  pad4 (year t) +:+ "-" +:+ pad2 (month_number (month_of t)) +:+ "-"
  +:+ pad2 (day t) +:+ "T" +:+ pad2 (hour t) +:+ ":" +:+ pad2 (minute t)
  +:+ ":" +:+ pad2 (second t)
  +:+ (if (microsecond t =? 0)%N then "" else "." +:+ pad6 (microsecond t)).

End Datetime.

(** ** services/email_service.py *)

Module EmailService.

Record EmailService : Type := {
  smtp_host : string;
  smtp_port : Z;
  smtp_username : string;
  smtp_password : string;
  from_email : string
}.

Definition session (self : EmailService) (msg : option email_message) : smtp_session :=
  {| ss_host := smtp_host self; ss_port := smtp_port self;
     ss_username := smtp_username self; ss_password := smtp_password self;
     ss_message := msg |}.

Definition test_connection (self : EmailService) : M (gmap string value) :=
  try_except
    (_ ← smtp_run (session self None);
     mret {[ "status" := VStr "healthy";
             "smtp_host" := VStr (smtp_host self);
             "smtp_port" := VInt (smtp_port self) ]})
    (λ e,
       msg ← str e;
       mret {[ "status" := VStr "error"; "error" := VStr msg ]}).

Definition _send_email (self : EmailService) (recipient_email : option string)
    (subject html_body text_body : string) : M bool :=
  try_except
    (_ ← smtp_run (session self
                     (Some {| msg_subject := subject;
                              msg_from := from_email self;
                              msg_to := recipient_email;
                              msg_text := text_body;
                              msg_html := html_body |}));
     mret true)
    (λ _, mret false).

(** The constant pieces of the four f-strings, cut at each replacement field
    and numbered in order. *)

Definition completion_html_0 : string := quoted "
            <html>
            <body style=`font-family: Arial, sans-serif; line-height: 1.6; color: #333;`>
                <div style=`max-width: 600px; margin: 0 auto; padding: 20px;`>
                    <div style=`background: linear-gradient(135deg, #667eea 0%, #764ba2 100%); color: white; padding: 30px; border-radius: 10px 10px 0 0; text-align: center;`>
                        <h1 style=`margin: 0; font-size: 24px;`>✅ Document Signing Completed</h1>
                        <p style=`margin: 10px 0 0 0; opacity: 0.9;`>Better Day Energy</p>
                    </div>
                    
                    <div style=`background: #f8f9fa; padding: 30px; border-radius: 0 0 10px 10px; border: 1px solid #e9ecef;`>
                        <h2 style=`color: #495057; margin-top: 0;`>Great News!</h2>
                        
                        <p>Your document has been successfully signed and completed.</p>
                        
                        <div style=`background: white; padding: 20px; border-radius: 8px; border-left: 4px solid #28a745; margin: 20px 0;`>
                            <h3 style=`margin: 0 0 10px 0; color: #28a745;`>Document Details:</h3>
                            <p style=`margin: 5px 0;`><strong>Submission ID:</strong> ".

Definition completion_html_1 : string := quoted "</p>
                            <p style=`margin: 5px 0;`><strong>Completed At:</strong> ".

Definition completion_html_2 : string := quoted "</p>
                            <p style=`margin: 5px 0;`><strong>Status:</strong> <span style=`color: #28a745; font-weight: bold;`>Completed</span></p>
                        </div>
                        
                        ".

Definition completion_html_link_0 : string := quoted "
                        <div style=`text-align: center; margin: 30px 0;`>
                            <a href=`".

Definition completion_html_link_1 : string := quoted "` 
                               style=`background: #007bff; color: white; padding: 12px 24px; text-decoration: none; border-radius: 6px; font-weight: bold; display: inline-block;`>
                                📄 Download Signed Document
                            </a>
                        </div>
                        ".

Definition completion_html_3 : string := quoted "
                        
                        <div style=`background: #e7f3ff; padding: 15px; border-radius: 6px; margin: 20px 0;`>
                            <p style=`margin: 0; font-size: 14px;`>
                                <strong>Next Steps:</strong> Your signed document is now complete. 
                                A copy has been securely stored and our team will process your request shortly.
                            </p>
                        </div>
                        
                        <hr style=`border: none; border-top: 1px solid #dee2e6; margin: 30px 0;`>
                        
                        <p style=`margin: 0; font-size: 12px; color: #6c757d; text-align: center;`>
                            This email was sent by Better Day Energy's automated document system.<br>
                            If you have questions, please contact our support team.
                        </p>
                    </div>
                </div>
            </body>
            </html>
            ".

Definition completion_text_0 : string := quoted "
            Document Signing Completed - Better Day Energy
            
            Great News! Your document has been successfully signed and completed.
            
            Document Details:
            - Submission ID: ".

Definition completion_text_1 : string := quoted "
            - Completed At: ".

Definition completion_text_2 : string := quoted "
            - Status: Completed
            
            ".

Definition completion_text_3 : string := quoted "
            
            Next Steps: Your signed document is now complete. A copy has been securely stored 
            and our team will process your request shortly.
            
            This email was sent by Better Day Energy's automated document system.
            If you have questions, please contact our support team.
            ".

Definition reminder_html_0 : string := quoted "
            <html>
            <body style=`font-family: Arial, sans-serif; line-height: 1.6; color: #333;`>
                <div style=`max-width: 600px; margin: 0 auto; padding: 20px;`>
                    <div style=`background: linear-gradient(135deg, #ffecd2 0%, #fcb69f 100%); color: #333; padding: 30px; border-radius: 10px 10px 0 0; text-align: center;`>
                        <h1 style=`margin: 0; font-size: 24px;`>⏰ Document Signing Reminder</h1>
                        <p style=`margin: 10px 0 0 0; opacity: 0.8;`>Better Day Energy</p>
                    </div>
                    
                    <div style=`background: #f8f9fa; padding: 30px; border-radius: 0 0 10px 10px; border: 1px solid #e9ecef;`>
                        <h2 style=`color: #495057; margin-top: 0;`>Action Required</h2>
                        
                        <p>You have a document waiting for your signature. This document has been pending for <strong>".

Definition reminder_html_1 : string := quoted " days</strong>.</p>
                        
                        <div style=`background: white; padding: 20px; border-radius: 8px; border-left: 4px solid #ffc107; margin: 20px 0;`>
                            <h3 style=`margin: 0 0 10px 0; color: #ffc107;`>Document Details:</h3>
                            <p style=`margin: 5px 0;`><strong>Submission ID:</strong> ".

Definition reminder_html_2 : string := quoted "</p>
                            <p style=`margin: 5px 0;`><strong>Days Pending:</strong> ".

Definition reminder_html_3 : string := quoted "</p>
                            <p style=`margin: 5px 0;`><strong>Status:</strong> <span style=`color: #ffc107; font-weight: bold;`>Waiting for Signature</span></p>
                        </div>
                        
                        <div style=`text-align: center; margin: 30px 0;`>
                            <a href=`".

Definition reminder_html_4 : string := quoted "` 
                               style=`background: #28a745; color: white; padding: 15px 30px; text-decoration: none; border-radius: 6px; font-weight: bold; display: inline-block; font-size: 16px;`>
                                🖊️ Sign Document Now
                            </a>
                        </div>
                        
                        <div style=`background: #fff3cd; padding: 15px; border-radius: 6px; margin: 20px 0; border: 1px solid #ffeaa7;`>
                            <p style=`margin: 0; font-size: 14px;`>
                                <strong>Important:</strong> Please complete the signing process to avoid delays in processing your request.
                            </p>
                        </div>
                        
                        <hr style=`border: none; border-top: 1px solid #dee2e6; margin: 30px 0;`>
                        
                        <p style=`margin: 0; font-size: 12px; color: #6c757d; text-align: center;`>
                            This reminder was sent by Better Day Energy's automated document system.<br>
                            If you have questions, please contact our support team.
                        </p>
                    </div>
                </div>
            </body>
            </html>
            ".

Definition reminder_text_0 : string := quoted "
            Document Signing Reminder - Better Day Energy
            
            Action Required: You have a document waiting for your signature.
            This document has been pending for ".

Definition reminder_text_1 : string := quoted " days.
            
            Document Details:
            - Submission ID: ".

Definition reminder_text_2 : string := quoted "
            - Days Pending: ".

Definition reminder_text_3 : string := quoted "
            - Status: Waiting for Signature
            
            Sign Document: ".

Definition reminder_text_4 : string := quoted "
            
            Important: Please complete the signing process to avoid delays in processing your request.
            
            This reminder was sent by Better Day Energy's automated document system.
            If you have questions, please contact our support team.
            ".


(** ["Download: " + document_url] *)
Definition concat_download (document_url : value) : outcome string :=
  match document_url with
  | VStr url => Ret ("Download: " +:+ url)
  | _ => Raise (Error "TypeError"
                  (quoted "can only concatenate str (not `"
                   +:+ type_name document_url +:+ quoted "`) to str"))
  end.

Definition completion_subject : string :=
  "✅ Document Signing Completed - BDE Energy".

Definition completion_html (submission_id : string) (now : datetime)
    (document_url : value) : string :=
  completion_html_0 +:+ submission_id +:+ completion_html_1
  +:+ Datetime.strftime now +:+ completion_html_2
  +:+ (if truthy document_url
       then completion_html_link_0 +:+ format document_url
            +:+ completion_html_link_1
       else "")
  +:+ completion_html_3.

Definition completion_text (submission_id : string) (now : datetime)
    (link : string) : string :=
  completion_text_0 +:+ submission_id +:+ completion_text_1
  +:+ Datetime.strftime now +:+ completion_text_2 +:+ link
  +:+ completion_text_3.

(** The clock is read once for each body, the formatted one first. *)
Definition send_completion_email (self : EmailService)
    (recipient_email : option string) (submission_id : string)
    (document_url : value) : M bool :=
  try_except
    (now_html ← utcnow;
     let html_body := completion_html submission_id now_html document_url in
     now_text ← utcnow;
     link ← (if truthy document_url then lift (concat_download document_url)
             else mret "");
     let text_body := completion_text submission_id now_text link in
     _send_email self recipient_email completion_subject html_body text_body)
    (λ _, mret false).

Definition reminder_subject : string :=
  "⏰ Reminder: Document Signing Pending - BDE Energy".

Definition reminder_html (submission_id signing_url : string)
    (days_pending : Z) : string :=
  reminder_html_0 +:+ pretty days_pending +:+ reminder_html_1
  +:+ submission_id +:+ reminder_html_2 +:+ pretty days_pending
  +:+ reminder_html_3 +:+ signing_url +:+ reminder_html_4.

Definition reminder_text (submission_id signing_url : string)
    (days_pending : Z) : string :=
  reminder_text_0 +:+ pretty days_pending +:+ reminder_text_1
  +:+ submission_id +:+ reminder_text_2 +:+ pretty days_pending
  +:+ reminder_text_3 +:+ signing_url +:+ reminder_text_4.

Definition send_reminder_email (self : EmailService)
    (recipient_email : option string) (submission_id signing_url : string)
    (days_pending : Z) : M bool :=
  try_except
    (_send_email self recipient_email reminder_subject
       (reminder_html submission_id signing_url days_pending)
       (reminder_text submission_id signing_url days_pending))
    (λ _, mret false).

End EmailService.

(** ** models/requests.py *)

Module Requests.

Record DocumentInitiateRequest : Type := {
  template_id : string;
  customer_email : string;
  customer_name : string;
  form_data : option (gmap string value)
}.

Record WebhookEventRequest : Type := {
  event_type : string;
  submission_id : string;
  submitter_email : option string;
  document_url : option string;
  timestamp : option datetime
}.

End Requests.

(** ** main.py *)

Module Main.

(** The two service objects built at import time *)
Record App : Type := {
  docuseal_client : DocusealClient.DocuSealClient;
  email_service : EmailService.EmailService
}.

Definition health_check (app : App) : M (gmap string value) :=
  docuseal_status ← DocusealClient.health_check (docuseal_client app);
  email_status ← EmailService.test_connection (email_service app);
  let status :=
    if eq_str (dict_get docuseal_status "status" VNone) "healthy"
       && eq_str (dict_get email_status "status" VNone) "healthy"
    then "healthy" else "degraded" in
  now ← utcnow;
  mret {[ "status" := VStr status;
          "services" := VDict {[ "docuseal" := VDict docuseal_status;
                                 "email" := VDict email_status ]};
          "timestamp" := VStr (Datetime.isoformat now) ]}.

Definition initiate_document_signing (app : App)
    (request_data : Requests.DocumentInitiateRequest) : M (gmap string value) :=
  try_except
    (submission_result ←
       DocusealClient.create_submission (docuseal_client app)
         (Requests.template_id request_data)
         (Requests.customer_email request_data)
         (Requests.customer_name request_data)
         (Requests.form_data request_data);
     if negb (truthy (dict_get submission_result "success" VNone)) then
       raise (HTTPException 500
                ("DocuSeal submission failed: "
                 +:+ format (dict_get submission_result "error" VNone)))
     else
       match submission_result !! "submission_id" with
       | None => raise (Error "KeyError" "'submission_id'")
       | Some submission_id =>
           mret {[ "submission_id" := submission_id;
                   "signing_url" := dict_get submission_result "signing_url" VNone;
                   "status" := VStr "initiated";
                   "message" := VStr ("Document sent to "
                                      +:+ Requests.customer_email request_data) ]}
       end)
    (λ e,
       msg ← str e;
       raise (HTTPException 500 ("Failed to initiate document: " +:+ msg))).

Definition get_document_status (app : App) (submission_id : string)
    : M (gmap string value) :=
  try_except
    (status ← DocusealClient.get_submission_status (docuseal_client app)
                submission_id;
     mret {[ "submission_id" := VStr submission_id;
             "status" := dict_get status "status" VNone;
             "completed_at" := dict_get status "completed_at" VNone;
             "document_url" := dict_get status "document_url" VNone;
             "signer_email" := dict_get status "signer_email" VNone ]})
    (λ e,
       msg ← str e;
       raise (HTTPException 500 ("Failed to get status: " +:+ msg))).

(** [not document_data] on an [Optional[Dict]] *)
Definition falsy_dict (o : option (gmap string value)) : bool :=
  match o with
  | None => true
  | Some d => negb (truthy (VDict d))
  end.

Definition download_document (app : App) (submission_id : string)
    : M (gmap string value) :=
  try_except
    (document_data ← DocusealClient.download_document (docuseal_client app)
                       submission_id;
     if falsy_dict document_data then
       raise (HTTPException 404 "Document not found or not completed")
     else
       let d := default ∅ document_data in
       mret {[ "submission_id" := VStr submission_id;
               "download_url" := dict_get d "download_url" VNone;
               "filename" := dict_get d "filename" VNone;
               "size_bytes" := dict_get d "size_bytes" VNone ]})
    (λ e,
       msg ← str e;
       raise (HTTPException 500 ("Failed to download: " +:+ msg))).

Definition handle_docuseal_webhook
    (webhook_data : Requests.WebhookEventRequest) : M (gmap string value) :=
  try_except
    (_ ← (if String.eqb (Requests.event_type webhook_data) "form.completed" then
            add_task (send_completion_notification_task
                        (Requests.submission_id webhook_data)
                        (Requests.submitter_email webhook_data))
          else if String.eqb (Requests.event_type webhook_data) "form.viewed" then
            mret tt
          else if String.eqb (Requests.event_type webhook_data) "form.started" then
            mret tt
          else mret tt);
     mret {[ "status" := VStr "processed" ]})
    (λ e,
       msg ← str e;
       raise (HTTPException 500 ("Webhook processing failed: " +:+ msg))).

Definition get_template_details (app : App) (template_id : string)
    : M (gmap string value) :=
  try_except
    (template ← DocusealClient.get_template (docuseal_client app) template_id;
     if negb (truthy template) then
       raise (HTTPException 404 "Template not found")
     else mret {[ "template" := template ]})
    (λ e,
       msg ← str e;
       raise (HTTPException 500 ("Failed to get template: " +:+ msg))).

(** The background task.  Its exceptions are logged and dropped. *)
Definition send_completion_notification (app : App) (submission_id : string)
    (signer_email : option string) : M unit :=
  try_except
    (status ← DocusealClient.get_submission_status (docuseal_client app)
                submission_id;
     _ ← EmailService.send_completion_email (email_service app) signer_email
           submission_id (dict_get status "document_url" VNone);
     mret tt)
    (λ _, mret tt).

(** What the framework runs for a queued task *)
Definition run_task (app : App) (t : task) : M unit :=
  match t with
  | send_completion_notification_task submission_id signer_email =>
      send_completion_notification app submission_id signer_email
  end.

End Main.

(** ** Sample worlds, for the concrete scenarios *)

Module Samples.

Definition client : DocusealClient.DocuSealClient :=
  DocusealClient.init "https://docuseal.co/" "tok_live".

Definition unconfigured : DocusealClient.DocuSealClient :=
  DocusealClient.init "https://docuseal.co" "".

Definition mailer : EmailService.EmailService :=
  {| EmailService.smtp_host := "smtp.gmail.com";
     EmailService.smtp_port := 587;
     EmailService.smtp_username := "agent@example.com";
     EmailService.smtp_password := "secret";
     EmailService.from_email := "agent@example.com" |}.

Definition app : Main.App :=
  {| Main.docuseal_client := client; Main.email_service := mailer |}.

Definition reply (code : Z) (body : string) (decoded : string + value) : response :=
  {| status_code := code; text := body; json := decoded; headers := ∅;
     content := []; elapsed_seconds := inject_Z 0 |}.

Definition noon : datetime :=
  {| year := 2026; month_of := November; day := 4; hour := 12; minute := 30;
     second := 0; microsecond := 0 |}.

(** A world whose provider always gives [res] and whose mail transport
    always gives [mail]; [str] of an [HTTPException] as Starlette prints it. *)
Definition world (res : http_result) (mail : option string) : env :=
  {| http := λ _ _, res;
     smtp := λ _ _, mail;
     clock := λ _, noon;
     http_exception_str := λ c d, pretty c +:+ ": " +:+ d |}.

Definition start : state := {| history := []; background_tasks := [] |}.

(** The body of the specification's scenario, and the same with no
    submitter entry *)
Definition created_body : value :=
  VDict {[ "id" := VStr "sub_9";
           "submitters" := VList [VDict {[ "embed_src" := VStr "https://x/9" ]}] ]}.

Definition created_body_no_submitter : value :=
  VDict {[ "id" := VStr "sub_9"; "submitters" := VList [] ]}.

(** A completed submission and its document: the provider answers the
    fetch of [document_url] with the file and every other call with the
    submission. *)
Definition document_url : string := "https://docuseal.co/file/9.pdf".

Definition completed_body : value :=
  VDict {[ "status" := VStr "completed";
           "documents" := VList [VDict {[ "url" := VStr document_url ]}] ]}.

Definition pdf : response :=
  {| status_code := 200; text := ""; json := inl "not JSON";
     headers := {[ "content-type" := "application/pdf" ]};
     content := [Byte.x25; Byte.x50; Byte.x44; Byte.x46];
     elapsed_seconds := inject_Z 0 |}.

Definition completed_world : env :=
  {| http := λ _ rq,
       if String.eqb (req_url rq) document_url then Responded pdf
       else Responded (reply 200 "" (inr completed_body));
     smtp := λ _ _, None;
     clock := λ _, noon;
     http_exception_str := λ c d, pretty c +:+ ": " +:+ d |}.

End Samples.

(** ** Vocabulary for the statements about message bodies *)

(** [c in s] for one character *)
Fixpoint char_in (c : Ascii.ascii) (s : string) : bool :=
  match s with
  | "" => false
  | String x s' => Ascii.eqb c x || char_in c s'
  end.

(** Every character of [s] is one of [alphabet]. *)
Fixpoint all_chars_in (alphabet s : string) : bool :=
  match s with
  | "" => true
  | String x s' => char_in x alphabet && all_chars_in alphabet s'
  end.

(** [s] starts with a character that [m] does not have. *)
Definition starts_apart (m s : string) : bool :=
  match s with
  | "" => false
  | String c _ => negb (char_in c m)
  end.

(** [s] ends with a character that [m] does not have. *)
Fixpoint ends_apart (m s : string) : bool :=
  match s with
  | "" => false
  | String c "" => negb (char_in c m)
  | String _ s' => ends_apart m s'
  end.

(** The characters a formatted clock reading can hold *)
Definition strftime_alphabet : string :=
  "0123456789 ,:ACDFJMNOPSTUabceghilmnoprstuvy".

(** Two characters no clock reading holds: [=] and [w] *)
Definition equals_sign : Ascii.ascii := Ascii.ascii_of_nat 61.
Definition letter_w : Ascii.ascii := Ascii.ascii_of_nat 119.

(** ** Vocabulary for the statements about the provider client *)

(** The provider did not answer the create call with 201. *)
Definition create_failed (res : http_result) : Prop :=
  match res with
  | Responded r => status_code r ≠ 201
  | _ => True
  end.

(** The first submitter entry of a decoded body, as the create call reads it:
    the default entry when the field is absent. *)
Definition first_submitter (body : gmap string value) : option (gmap string value) :=
  match dict_get body "submitters" (VList [VDict ∅]) with
  | VList (VDict entry :: _) => Some entry
  | _ => None
  end.

(** ** The rest of the sources *)

(** Iteration and [len], which [list_templates] applies to decoded JSON. *)
Module Builtins.

#[global] Instance outcome_ret : MRet outcome := λ A a, Ret a.

#[global] Instance outcome_bind : MBind outcome := λ A B f o,
  match o with
  | Ret a => f a
  | Raise x => Raise x
  end.

(** A byte [10xxxxxx] continues a UTF-8 character. *)
Definition is_continuation (c : Ascii.ascii) : bool :=
  let n := Ascii.nat_of_ascii c in ((128 <=? n) && (n <? 192))%nat.

(** The characters of a [str] kept as UTF-8 bytes: the continuation bytes
    that open [s], and the characters after them. *)
Fixpoint utf8_split (s : string) : string * list string :=
  match s with
  | "" => ("", [])
  | String c s' =>
      let (pending, chars) := utf8_split s' in
      if is_continuation c then (String c pending, chars)
      else ("", String c pending :: chars)
  end.

Definition utf8_chars (s : string) : list string :=
  let (pending, chars) := utf8_split s in
  match pending with
  | "" => chars
  | _ => pending :: chars
  end.

(** [for x in v].  A dict gives its keys; the model does not keep their
    order, and [list_templates] fails on the first key whichever it is. *)
Definition iterate (v : value) : outcome (list value) :=
  match v with
  | VList l => Ret l
  | VStr s => Ret (VStr <$> utf8_chars s)
  | VDict d => Ret (VStr <$> (map_to_list d).*1)
  | _ => Raise (Error "TypeError"
                  ("'" +:+ type_name v +:+ "' object is not iterable"))
  end.

(** [len(v)] *)
Definition len (v : value) : outcome Z :=
  match v with
  | VList l => Ret (Z.of_nat (length l))
  | VStr s => Ret (Z.of_nat (length (utf8_chars s)))
  | VDict d => Ret (Z.of_nat (size d))
  | _ => Raise (Error "TypeError"
                  ("object of type '" +:+ type_name v +:+ "' has no len()"))
  end.

(** A list comprehension: the elements in order, stopping at the first
    exception. *)
Fixpoint comprehension {A B : Type} (f : A → outcome B) (l : list A)
    : outcome (list B) :=
  match l with
  | [] => Ret []
  | x :: l' =>
      y ← f x;
      ys ← comprehension f l';
      Ret (y :: ys)
  end.

End Builtins.

(** [DocuSealClient.list_templates] *)
Module TemplateListing.

(** One element of the comprehension *)
Definition summary (template : value) : outcome value :=
  id ← get template "id" VNone;
  name ← get template "name" VNone;
  description ← get template "description" VNone;
  schema ← get template "schema" (VList []);
  fields_count ← Builtins.len schema;
  created_at ← get template "created_at" VNone;
  Ret (VDict {[ "id" := id;
                "name" := name;
                "description" := description;
                "fields_count" := VInt fields_count;
                "created_at" := created_at ]}).

Definition list_templates (self : DocusealClient.DocuSealClient)
    : M (list value) :=
  try_except
    (response ← send (DocusealClient.get_request self
                        (DocusealClient.base_url self +:+ "/api/templates"));
     if status_code response =? 200 then
       templates ← json_of response;
       items ← lift (Builtins.iterate templates);
       lift (Builtins.comprehension summary items)
     else mret [])
    (λ _, mret []).

End TemplateListing.

(** The endpoints of [main.py] that are left *)
Module Endpoints.

Definition root : M (gmap string value) :=
  now ← utcnow;
  mret {[ "service" := VStr "BDE DocuSeal Service";
          "version" := VStr "1.0.0";
          "status" := VStr "operational";
          "timestamp" := VStr (Datetime.isoformat now);
          "description" := VStr "External document signing service" ]}.

Definition list_templates (app : Main.App) : M (gmap string value) :=
  try_except
    (templates ← TemplateListing.list_templates (Main.docuseal_client app);
     mret {[ "templates" := VList templates;
             "count" := VInt (Z.of_nat (length templates)) ]})
    (λ e,
       msg ← str e;
       raise (HTTPException 500 ("Failed to list templates: " +:+ msg))).

(** [d[k]] on a dict *)
Definition item (d : gmap string value) (k : string) : M value :=
  match d !! k with
  | Some v => mret v
  | None => raise (Error "KeyError" ("'" +:+ k +:+ "'"))
  end.

(** [startup_event]: it reads [health["status"]] and, when that is not
    [healthy], [health['services']] for the warning it logs. *)
Definition startup_event (app : Main.App) : M unit :=
  health ← Main.health_check app;
  status ← item health "status";
  if eq_str status "healthy" then mret tt
  else
    _ ← item health "services";
    mret tt.

End Endpoints.

(** ** Vocabulary for the statements about what an operation sends *)

(** From any world and state, [m] adds to the history at most [n] events,
    each of which satisfies [Q], and leaves the task queue alone. *)
Definition emits {A : Type} (Q : event → Prop) (n : nat) (m : M A) : Prop :=
  ∀ (e : env) (s : state),
    ∃ l, (m e s).2 = {| history := history s ++ l;
                        background_tasks := background_tasks s |}
         ∧ Forall Q l ∧ (length l ≤ n)%nat.

(** A provider call that carries the client's token and its timeout *)
Definition authenticated (self : DocusealClient.DocuSealClient) (ev : event)
    : Prop :=
  match ev with
  | EvHttp rq _ =>
      req_headers rq !! "X-Auth-Token" = Some (DocusealClient.api_token self)
      ∧ req_timeout rq = DocusealClient.timeout self
  | _ => False
  end.

(** A mail session with the notifier's configuration, or a clock reading *)
Definition configured (self : EmailService.EmailService) (ev : event) : Prop :=
  match ev with
  | EvSmtp ss _ =>
      ss_host ss = EmailService.smtp_host self
      ∧ ss_port ss = EmailService.smtp_port self
      ∧ ss_username ss = EmailService.smtp_username self
      ∧ ss_password ss = EmailService.smtp_password self
  | EvClock _ => True
  | EvHttp _ _ => False
  end.

(** The first entry of the list under [k], as the status read takes it:
    the default entry when the key is absent. *)
Definition first_entry (body : gmap string value) (k : string)
    : option (gmap string value) :=
  match dict_get body k (VList [VDict ∅]) with
  | VList (VDict entry :: _) => Some entry
  | _ => None
  end.

(** [s] ends with a slash. *)
Fixpoint ends_with_slash (s : string) : bool :=
  match s with
  | "" => false
  | String c "" => String.eqb (String c "") "/"
  | String _ s' => ends_with_slash s'
  end.

(** [n] slashes *)
Fixpoint slashes (n : nat) : string :=
  match n with
  | O => ""
  | S n' => String (Ascii.ascii_of_nat 47) (slashes n')
  end.

(** ** Vocabulary for the statements about the template listing *)

(** A template the listing can summarise: an object whose [schema], when
    present, has a length. *)
Definition listable (template : value) : bool :=
  match template with
  | VDict d =>
      match dict_get d "schema" (VList []) with
      | VList _ | VStr _ | VDict _ => true
      | _ => false
      end
  | _ => false
  end.

(** [summary] is the listing's entry for [template]. *)
Definition summarised (template summary : value) : Prop :=
  ∃ d n,
    template = VDict d
    ∧ Builtins.len (dict_get d "schema" (VList [])) = Ret n
    ∧ summary = VDict {[ "id" := dict_get d "id" VNone;
                         "name" := dict_get d "name" VNone;
                         "description" := dict_get d "description" VNone;
                         "fields_count" := VInt n;
                         "created_at" := dict_get d "created_at" VNone ]}.


(** * Properties *)

(** ** Stepping through the monad *)

Ltac unfold_M :=
  unfold mbind, M_bind, mret, M_ret, try_except, lift, raise, str, json_of,
    send, smtp_run, utcnow, add_task in *.

Ltac run_M := unfold_M; simpl.

(** ** Strings *)

Lemma append_cons (x : Ascii.ascii) (a b : string) :
  String x a +:+ b = String x (a +:+ b).
Proof. reflexivity. Qed.

Lemma append_assoc (a b c : string) : (a +:+ b) +:+ c = a +:+ b +:+ c.
Proof.
  induction a as [|x a IH]; [done|]. by rewrite !append_cons, IH.
Qed.

Lemma contains_middle (a m b : string) : contains (a +:+ m +:+ b) m.
Proof. by exists a, b. Qed.

Lemma occurs_empty (s : string) : occurs "" s = true.
Proof. by destruct s. Qed.

Lemma occurs_cons (m : string) (x : Ascii.ascii) (s : string) :
  occurs m (String x s) = String.prefix m (String x s) || occurs m s.
Proof. reflexivity. Qed.

Lemma occurs_in_empty (m : string) : m ≠ "" → occurs m "" = false.
Proof. by destruct m. Qed.

Lemma char_in_app (c : Ascii.ascii) (a b : string) :
  char_in c (a +:+ b) = char_in c a || char_in c b.
Proof.
  induction a as [|x a IH]; [done|].
  rewrite append_cons. simpl. by rewrite IH, orb_assoc.
Qed.

Lemma all_chars_in_app (alphabet a b : string) :
  all_chars_in alphabet (a +:+ b)
  = all_chars_in alphabet a && all_chars_in alphabet b.
Proof.
  induction a as [|x a IH]; [done|].
  rewrite append_cons. simpl. by rewrite IH, andb_assoc.
Qed.

Lemma all_chars_in_excludes (alphabet s : string) (c : Ascii.ascii) :
  all_chars_in alphabet s = true → char_in c alphabet = false →
  char_in c s = false.
Proof.
  intros Hall Hc. induction s as [|x s IH]; simpl in *; [done|].
  apply andb_true_iff in Hall as [Hx Hs]. rewrite (IH Hs), orb_false_r.
  destruct (Ascii.eqb_spec c x) as [->|]; [congruence|done].
Qed.

(** A prefix test never looks past a character the pattern lacks. *)
Lemma prefix_before_separator (m a b : string) (c : Ascii.ascii) :
  char_in c m = false →
  String.prefix m (a +:+ String c b) = String.prefix m a.
Proof.
  revert m. induction a as [|x a IH]; intros [|y m];
    rewrite ?append_cons; simpl; try done.
  - intros Hc. apply orb_false_iff in Hc as [Hc _].
    destruct (Ascii.ascii_dec y c) as [->|]; [|done].
    by rewrite Ascii.eqb_refl in Hc.
  - intros Hc. apply orb_false_iff in Hc as [_ Hc].
    destruct (Ascii.ascii_dec y x); [by apply IH|done].
Qed.

(** An occurrence cannot run across a character the pattern lacks. *)
Lemma occurs_split (m a b : string) (c : Ascii.ascii) :
  m ≠ "" → char_in c m = false →
  occurs m (a +:+ String c b) = occurs m a || occurs m b.
Proof.
  intros Hm Hc. induction a as [|x a IH].
  - change ("" +:+ String c b) with (String c b).
    rewrite (occurs_in_empty m Hm).
    destruct m as [|y m]; [done|]. simpl in *.
    apply orb_false_iff in Hc as [Hc _].
    destruct (Ascii.ascii_dec y c) as [->|]; [|done].
    by rewrite Ascii.eqb_refl in Hc.
  - rewrite append_cons, !occurs_cons, IH.
    rewrite <- (append_cons x a (String c b)).
    rewrite prefix_before_separator by done. by rewrite orb_assoc.
Qed.

Lemma occurs_after_separator (m : string) (c : Ascii.ascii) (b : string) :
  m ≠ "" → char_in c m = false → occurs m (String c b) = occurs m b.
Proof.
  intros Hm Hc. change (String c b) with ("" +:+ String c b).
  by rewrite occurs_split, (occurs_in_empty m Hm).
Qed.

Lemma occurs_before_separator (m a : string) (c : Ascii.ascii) :
  m ≠ "" → char_in c m = false → occurs m (a +:+ String c "") = occurs m a.
Proof.
  intros Hm Hc.
  by rewrite occurs_split, (occurs_in_empty m Hm), orb_false_r.
Qed.

Lemma starts_apart_inv (m s : string) :
  starts_apart m s = true → ∃ c s', s = String c s' ∧ char_in c m = false.
Proof.
  destruct s as [|c s']; simpl; [done|]. intros H%negb_true_iff. eauto.
Qed.

Lemma ends_apart_inv (m s : string) :
  ends_apart m s = true → ∃ s' c, s = s' +:+ String c "" ∧ char_in c m = false.
Proof.
  induction s as [|x s IH]; simpl; [done|]. destruct s as [|y s].
  - intros H%negb_true_iff. by exists "", x.
  - intros (s' & c & -> & Hc)%IH. by exists (String x s'), c.
Qed.

(** A replacement field set between two constant pieces: what occurs in the
    whole occurs in one of the three. *)
Lemma occurs_field (m a x b : string) :
  m ≠ "" → ends_apart m a = true → starts_apart m b = true →
  occurs m (a +:+ x +:+ b) = occurs m a || occurs m x || occurs m b.
Proof.
  intros Hm (a' & c1 & -> & Hc1)%ends_apart_inv
    (c2 & b' & -> & Hc2)%starts_apart_inv.
  rewrite append_assoc.
  change (String c1 "" +:+ x +:+ String c2 b')
    with (String c1 (x +:+ String c2 b')).
  rewrite (occurs_split m a' _ c1), (occurs_split m x b' c2) by done.
  rewrite (occurs_before_separator m a' c1) by done.
  rewrite (occurs_after_separator m c2 b') by done.
  by rewrite orb_assoc.
Qed.

Lemma starts_apart_app (m a b : string) :
  starts_apart m a = true → starts_apart m (a +:+ b) = true.
Proof. by destruct a. Qed.

Lemma prefix_needs_chars (m t : string) (c : Ascii.ascii) :
  char_in c m = true → char_in c t = false → String.prefix m t = false.
Proof.
  revert t. induction m as [|y m IH]; intros [|z t] Hm Ht; simpl in *;
    try done.
  apply orb_false_iff in Ht as [Hz Ht].
  destruct (Ascii.ascii_dec y z) as [->|]; [|done].
  rewrite Hz in Hm. by apply IH.
Qed.

Lemma occurs_needs_chars (m s : string) (c : Ascii.ascii) :
  char_in c m = true → char_in c s = false → occurs m s = false.
Proof.
  intros Hm Hs. induction s as [|x s IH].
  - by destruct m.
  - rewrite occurs_cons, (prefix_needs_chars m _ c Hm Hs). simpl in Hs.
    apply orb_false_iff in Hs as [_ Hs]. by rewrite IH.
Qed.

Lemma occurs_two_fields (m a x b y c : string) :
  m ≠ "" →
  ends_apart m a = true → starts_apart m b = true →
  ends_apart m b = true → starts_apart m c = true →
  occurs m (a +:+ x +:+ b +:+ y +:+ c)
  = occurs m a || occurs m x || occurs m b || occurs m y || occurs m c.
Proof.
  intros Hm Ha Hb Hb' Hc.
  rewrite (occurs_field m a x) by auto using starts_apart_app.
  rewrite (occurs_field m b y c) by done.
  by rewrite !orb_assoc.
Qed.

Lemma contains_here (m b : string) : contains (m +:+ b) m.
Proof. by exists "", b. Qed.

Lemma contains_later (a b m : string) : contains b m → contains (a +:+ b) m.
Proof.
  intros (pre & post & ->). exists (a +:+ pre), post. by rewrite append_assoc.
Qed.

Lemma prefix_append (m post : string) : String.prefix m (m +:+ post) = true.
Proof.
  induction m as [|x m IH]; [by destruct post|].
  rewrite append_cons. simpl. by destruct (Ascii.ascii_dec x x).
Qed.

Lemma prefix_inv (m s : string) :
  String.prefix m s = true → ∃ post, s = m +:+ post.
Proof.
  revert s. induction m as [|x m IH]; intros s; [by exists s|].
  destruct s as [|y s]; simpl; [done|].
  destruct (Ascii.ascii_dec x y) as [->|]; [|done].
  intros (post & ->)%IH. by exists post.
Qed.

Lemma occurs_of_prefix (m s : string) :
  String.prefix m s = true → occurs m s = true.
Proof.
  intros Hp. destruct s as [|x s]; [by destruct m|].
  by rewrite occurs_cons, Hp.
Qed.

(** [occurs] decides [contains]. *)
Lemma occurs_contains (m s : string) : occurs m s = true ↔ contains s m.
Proof.
  split.
  - induction s as [|x s IH].
    + destruct m; [|done]. by exists "", "".
    + rewrite occurs_cons. intros [Hp|Ho]%orb_true_iff.
      * apply prefix_inv in Hp as (post & ->). by exists "", post.
      * destruct (IH Ho) as (pre & post & ->). by exists (String x pre), post.
  - intros (pre & post & ->). induction pre as [|x pre IH].
    + change ("" +:+ m +:+ post) with (m +:+ post).
      apply occurs_of_prefix, prefix_append.
    + by rewrite append_cons, occurs_cons, IH, orb_true_r.
Qed.

(** Finds a replacement field in a body built by concatenation. *)
Ltac find_field := repeat first [apply contains_here | apply contains_later].

(** *** The formatted clock reading *)

Lemma digit_in_alphabet (k : nat) :
  all_chars_in strftime_alphabet (Datetime.digit k) = true.
Proof. do 10 (destruct k as [|k]; [reflexivity|]). reflexivity. Qed.

Lemma pad2_in_alphabet (n : N) :
  all_chars_in strftime_alphabet (Datetime.pad2 n) = true.
Proof.
  unfold Datetime.pad2. by rewrite all_chars_in_app, !digit_in_alphabet.
Qed.

Lemma strftime_in_alphabet (t : datetime) :
  all_chars_in strftime_alphabet (Datetime.strftime t) = true.
Proof.
  unfold Datetime.strftime, Datetime.pad4, Datetime.am_pm.
  rewrite !all_chars_in_app, !pad2_in_alphabet.
  destruct (month_of t), (hour t <? 12)%N; reflexivity.
Qed.

Lemma strftime_lacks (m : string) (c : Ascii.ascii) (t : datetime) :
  char_in c m = true → char_in c strftime_alphabet = false →
  occurs m (Datetime.strftime t) = false.
Proof.
  intros Hm Hc. apply (occurs_needs_chars m _ c Hm).
  exact (all_chars_in_excludes strftime_alphabet _ c
           (strftime_in_alphabet t) Hc).
Qed.

(** *** The helpers on concrete inputs *)

Example strftime_noon :
  Datetime.strftime Samples.noon = "November 04, 2026 at 12:30 PM UTC".
Proof. reflexivity. Qed.

Example strftime_midnight :
  Datetime.strftime
    {| year := 2024; month_of := January; day := 15; hour := 0; minute := 5;
       second := 9; microsecond := 0 |}
  = "January 15, 2024 at 12:05 AM UTC".
Proof. reflexivity. Qed.

Example strftime_afternoon :
  Datetime.strftime
    {| year := 2024; month_of := March; day := 1; hour := 13; minute := 0;
       second := 0; microsecond := 0 |}
  = "March 01, 2024 at 01:00 PM UTC".
Proof. reflexivity. Qed.

Example isoformat_microseconds :
  Datetime.isoformat
    {| year := 2024; month_of := January; day := 15; hour := 10; minute := 30;
       second := 0; microsecond := 1500 |}
  = "2024-01-15T10:30:00.001500".
Proof. reflexivity. Qed.

Example isoformat_noon : Datetime.isoformat Samples.noon = "2026-11-04T12:30:00".
Proof. reflexivity. Qed.

Example rstrip_slash_trailing :
  rstrip_slash "https://docuseal.co//" = "https://docuseal.co".
Proof. reflexivity. Qed.

Example rstrip_slash_inner : rstrip_slash "a/b" = "a/b".
Proof. reflexivity. Qed.

Example lower_header : lower "X-API-Version" = "x-api-version".
Proof. reflexivity. Qed.

Example occurs_inside : occurs "href=" (quoted "<a href=`x`>") = true.
Proof. reflexivity. Qed.

Example quoted_quotes :
  quoted "`" = String (Ascii.ascii_of_nat 34) "".
Proof. reflexivity. Qed.

Import DocusealClient.
Import EmailService.

(** ** The provider client *)

(** C5.  When the provider answers the create call with a status other than
    201, or the call times out, or the transport fails, [create_submission]
    returns (it does not raise) the dict [{success: False, error: msg}] after
    that one call.  For a non-201 answer [msg] is [HTTP <status>: <body>], so
    it contains the provider's status code; for a timeout it is
    [DocuSeal API timeout]; for any other failure it is the [str] of the
    exception. *)
Theorem create_submission_failure (self : DocuSealClient)
    (template_id customer_email customer_name : string)
    (pre_filled_data : option (gmap string value)) (e : env) (st : state) :
  create_failed
    (http e (history st)
       (create_request self template_id customer_email customer_name
          pre_filled_data)) →
  ∃ msg : string,
    create_submission self template_id customer_email customer_name
      pre_filled_data e st
    = (Ret {[ "success" := VBool false; "error" := VStr msg ]},
       record
         (EvHttp (create_request self template_id customer_email customer_name
                    pre_filled_data)
            (http e (history st)
               (create_request self template_id customer_email customer_name
                  pre_filled_data))) st)
    ∧ match http e (history st)
              (create_request self template_id customer_email customer_name
                 pre_filled_data) with
      | Responded r =>
          msg = "HTTP " +:+ pretty (status_code r) +:+ ": " +:+ text r
          ∧ contains msg (pretty (status_code r))
      | TimedOut _ => msg = "DocuSeal API timeout"
      | Failed _ m => msg = m
      end.
Proof.
  intros Hfail. unfold create_submission. run_M.
  destruct (http e (history st) _) as [r|m|n m]; simpl in *.
  - apply Z.eqb_neq in Hfail. rewrite Hfail.
    eexists; split; [reflexivity|]. split; [reflexivity|].
    apply contains_middle.
  - by eexists.
  - by eexists.
Qed.

(** A provider that answers 500, seen through [create_submission_failure]. *)
Lemma create_submission_failure_witness :
  create_failed (Responded (Samples.reply 500 "boom" (inl "")))
  ∧ (create_submission Samples.client "tmpl_1" "a@b.com" "A B" None
       (Samples.world (Responded (Samples.reply 500 "boom" (inl ""))) None)
       Samples.start).1
    = Ret {[ "success" := VBool false; "error" := VStr "HTTP 500: boom" ]}.
Proof.
  assert (create_failed (Responded (Samples.reply 500 "boom" (inl ""))))
    as Hfail by (simpl; discriminate).
  split; [exact Hfail|].
  destruct (create_submission_failure Samples.client "tmpl_1" "a@b.com" "A B"
              None
              (Samples.world (Responded (Samples.reply 500 "boom" (inl "")))
                 None)
              Samples.start Hfail) as (msg & Hrun & Hmsg).
  rewrite Hrun. simpl in Hmsg. destruct Hmsg as [-> _]. reflexivity.
Defined.

Lemma create_submission_never_raises (self : DocuSealClient)
    (template_id customer_email customer_name : string)
    (pre_filled_data : option (gmap string value)) (e : env) (st : state) :
  ∃ d st',
    create_submission self template_id customer_email customer_name
      pre_filled_data e st = (Ret d, st').
Proof.
  unfold create_submission. run_M.
  destruct (http e (history st) _) as [r|m|n m]; simpl; [|by eauto..].
  destruct (status_code r =? 201); simpl; [|by eauto].
  destruct (json r) as [m|v]; simpl; [by eauto|].
  destruct (get v "id" VNone) as [a|x]; simpl; [|destruct x; by eauto].
  destruct (get v "submitters" _) as [b|x]; simpl; [|destruct x; by eauto].
  destruct (subscript0 b) as [c|x]; simpl; [|destruct x; by eauto].
  destruct (get c "embed_src" VNone) as [d|x]; simpl; [|destruct x]; by eauto.
Qed.

(** [get] and [subscript0] fail only with the interpreter's own errors. *)
Lemma get_raises (v : value) (k : string) (dflt : value) (x : exn) :
  get v k dflt = Raise x → ∃ n m, x = Error n m.
Proof. destruct v; simpl; intros [= <-] || discriminate; eauto. Qed.

Lemma subscript0_raises (v : value) (x : exn) :
  subscript0 v = Raise x → ∃ n m, x = Error n m.
Proof.
  destruct v as [| | | |s|l|d]; simpl; try (intros [= <-]; eauto).
  - destruct s; intros [= <-] || discriminate; eauto.
  - destruct l; intros [= <-] || discriminate; eauto.
Qed.

Lemma create_submission_created (self : DocuSealClient)
    (template_id customer_email customer_name : string)
    (pre_filled_data : option (gmap string value)) (e : env) (st : state)
    (r : response) (body entry : gmap string value) :
  http e (history st)
    (create_request self template_id customer_email customer_name
       pre_filled_data) = Responded r →
  status_code r = 201 →
  json r = inr (VDict body) →
  first_submitter body = Some entry →
  create_submission self template_id customer_email customer_name
    pre_filled_data e st
  = (Ret {[ "success" := VBool true;
            "submission_id" := dict_get body "id" VNone;
            "signing_url" := dict_get entry "embed_src" VNone;
            "email_sent" := VBool true ]},
     record (EvHttp (create_request self template_id customer_email
                       customer_name pre_filled_data) (Responded r)) st).
Proof.
  intros Hres Hcode Hjson Hfirst. unfold create_submission. run_M.
  rewrite Hres, Hcode, Hjson. simpl.
  unfold first_submitter in Hfirst.
  destruct (dict_get body "submitters" _) as [| | | | |[|[| | | | | |d] l]|];
    try discriminate.
  by injection Hfirst as ->.
Qed.

(** The scenario of the specification, on a provider that gives 201 and
    [{id: sub_9, submitters: [{embed_src: https://x/9}]}]. *)
Lemma create_submission_scenario :
  (create_submission Samples.client "tmpl_1" "a@b.com" "A B"
     (Some {[ "company" := VStr "Acme" ]})
     (Samples.world (Responded (Samples.reply 201 "" (inr Samples.created_body)))
        None)
     Samples.start).1
  = Ret {[ "success" := VBool true;
           "submission_id" := VStr "sub_9";
           "signing_url" := VStr "https://x/9";
           "email_sent" := VBool true ]}.
Proof.
  rewrite (create_submission_created _ _ _ _ _ _ _
             (Samples.reply 201 "" (inr Samples.created_body))
             {[ "id" := VStr "sub_9";
                "submitters" :=
                  VList [VDict {[ "embed_src" := VStr "https://x/9" ]}] ]}
             {[ "embed_src" := VStr "https://x/9" ]});
    reflexivity.
Qed.

(** C4.  The code at the input on which the claim fails: a 201 answer whose
    body is [{id: sub_9, submitters: []}].  The claim gives
    [{success: True, submission_id: sub_9}] with no signing URL; the code
    returns a failure, the [IndexError] of [submitters[0]] caught by its
    catch-all.  ([create_submission_created] and
    [create_submission_scenario] above are the claim where a first submitter
    entry exists or the field is absent.) *)
Theorem create_submission_empty_submitters :
  (create_submission Samples.client "tmpl_1" "a@b.com" "A B"
     (Some {[ "company" := VStr "Acme" ]})
     (Samples.world
        (Responded (Samples.reply 201 "" (inr Samples.created_body_no_submitter)))
        None)
     Samples.start).1
  = Ret {[ "success" := VBool false;
           "error" := VStr "list index out of range" ]}.
Proof.
  unfold create_submission. run_M. reflexivity.
Qed.

Lemma dict_get_some (d : gmap string value) (k : string) (dflt v : value) :
  d !! k = Some v → dict_get d k dflt = v.
Proof. unfold dict_get. by intros ->. Qed.

(** C10.  Reading the first element of a list that is present and empty
    fails.  On a 201 answer whose decoded body has [submitters: []],
    [create_submission] returns [{success: False, error: list index out of
    range}].  On a 200 answer whose decoded body has [documents: []],
    [get_submission_status] raises [HTTPException(500, DocuSeal error: list
    index out of range)]; when it has [submitters: []] it raises an
    [HTTPException] with status 500 as well. *)
Theorem first_element_not_total (self : DocuSealClient) (e : env) (st : state)
    (r : response) (body : gmap string value) :
  json r = inr (VDict body) →
  (∀ template_id customer_email customer_name pre_filled_data,
     http e (history st)
       (create_request self template_id customer_email customer_name
          pre_filled_data) = Responded r →
     status_code r = 201 →
     body !! "submitters" = Some (VList []) →
     create_submission self template_id customer_email customer_name
       pre_filled_data e st
     = (Ret {[ "success" := VBool false;
               "error" := VStr "list index out of range" ]},
        record (EvHttp (create_request self template_id customer_email
                          customer_name pre_filled_data) (Responded r)) st))
  ∧ (∀ submission_id,
       http e (history st) (status_request self submission_id) = Responded r →
       status_code r = 200 →
       (body !! "documents" = Some (VList []) →
        get_submission_status self submission_id e st
        = (Raise (HTTPException 500 "DocuSeal error: list index out of range"),
           record (EvHttp (status_request self submission_id) (Responded r)) st))
       ∧ (body !! "submitters" = Some (VList []) →
          ∃ detail,
            get_submission_status self submission_id e st
            = (Raise (HTTPException 500 detail),
               record (EvHttp (status_request self submission_id)
                         (Responded r)) st))).
Proof.
  intros Hjson. split.
  - intros tid em nm pre Hres Hcode Hsub.
    unfold create_submission. run_M. rewrite Hres, Hcode, Hjson. simpl.
    by rewrite (dict_get_some _ _ _ _ Hsub).
  - intros id Hres Hcode. split.
    + intros Hdocs. unfold get_submission_status. run_M.
      rewrite Hres, Hcode, Hjson. simpl.
      by rewrite (dict_get_some _ _ _ _ Hdocs).
    + intros Hsub. unfold get_submission_status. run_M.
      rewrite Hres, Hcode, Hjson. simpl.
      destruct (subscript0 (dict_get body "documents" _)) as [doc|x] eqn:Hdoc;
        simpl.
      * destruct (get doc "url" VNone) as [url|x] eqn:Hurl; simpl.
        -- rewrite (dict_get_some _ _ _ _ Hsub). simpl. by eexists.
        -- apply get_raises in Hurl as (n & m & ->). by eexists.
      * apply subscript0_raises in Hdoc as (n & m & ->). by eexists.
Qed.

(** A completed submission with no document, seen through
    [first_element_not_total]. *)
Lemma first_element_not_total_witness :
  (get_submission_status Samples.client "sub_9"
     (Samples.world
        (Responded
           (Samples.reply 200 ""
              (inr (VDict {[ "status" := VStr "completed";
                             "documents" := VList [] ]})))) None)
     Samples.start).1
  = Raise (HTTPException 500 "DocuSeal error: list index out of range").
Proof.
  destruct (first_element_not_total Samples.client
              (Samples.world
                 (Responded
                    (Samples.reply 200 ""
                       (inr (VDict {[ "status" := VStr "completed";
                                      "documents" := VList [] ]})))) None)
              Samples.start
              (Samples.reply 200 ""
                 (inr (VDict {[ "status" := VStr "completed";
                                "documents" := VList [] ]})))
              {[ "status" := VStr "completed"; "documents" := VList [] ]}
              eq_refl) as [_ Hstatus].
  destruct (Hstatus "sub_9" eq_refl eq_refl) as [Hdocs _].
  rewrite (Hdocs eq_refl). reflexivity.
Defined.

Lemma eq_str_true (v : value) (s : string) : eq_str v s = true ↔ v = VStr s.
Proof.
  destruct v; simpl; try (split; [discriminate|intros [=]]).
  rewrite String.eqb_eq. split; [by intros ->|by intros [= ->]].
Qed.

Lemma eq_str_false (v : value) (s : string) : eq_str v s = false ↔ v ≠ VStr s.
Proof.
  rewrite <- eq_str_true. destruct (eq_str v s); naive_solver.
Qed.

(** C6, as stated, fails: with an empty token [create_submission] does not
    report an error of its own.  It sends the request, and on a provider
    that answers 201 it returns a success. *)
Lemma unconfigured_create_reaches_provider :
  ¬ ∀ (e : env) (st : state) template_id customer_email customer_name
      pre_filled_data,
      ∃ d st',
        create_submission Samples.unconfigured template_id customer_email
          customer_name pre_filled_data e st = (Ret d, st')
        ∧ d !! "success" = Some (VBool false).
Proof.
  intros H.
  destruct (H (Samples.world
                 (Responded (Samples.reply 201 "" (inr Samples.created_body)))
                 None)
              Samples.start "tmpl_1" "a@b.com" "A B" None)
    as (d & st' & Hrun & Hd).
  rewrite (create_submission_created _ _ _ _ _ _ _
             (Samples.reply 201 "" (inr Samples.created_body))
             {[ "id" := VStr "sub_9";
                "submitters" :=
                  VList [VDict {[ "embed_src" := VStr "https://x/9" ]}] ]}
             {[ "embed_src" := VStr "https://x/9" ]}) in Hrun;
    [|reflexivity..].
  injection Hrun as <- _. discriminate Hd.
Qed.

Lemma unconfigured_status_raises :
  (get_submission_status Samples.unconfigured "sub_1"
     (Samples.world (Responded (Samples.reply 401 "Not authenticated" (inl "")))
        None)
     Samples.start).1
  = Raise (HTTPException 401 "DocuSeal API error: Not authenticated").
Proof. unfold get_submission_status. run_M. reflexivity. Qed.

Lemma download_document_run (self : DocuSealClient) (submission_id : string)
    (e : env) (st : state) :
  download_document self submission_id e st
  = match get_submission_status self submission_id e st with
    | (Raise _, st1) => (Ret None, st1)
    | (Ret status, st1) =>
        if negb (eq_str (dict_get status "status" VNone) "completed") then
          (Ret None, st1)
        else if negb (truthy (dict_get status "document_url" VNone)) then
          (Ret None, st1)
        else
          match dict_get status "document_url" VNone with
          | VStr url =>
              let rq := get_request self url in
              let st2 := record (EvHttp rq (http e (history st1) rq)) st1 in
              match http e (history st1) rq with
              | Responded r =>
                  if status_code r =? 200 then
                    (Ret (Some
                       {[ "download_url" := VStr url;
                          "filename" :=
                            VStr ("document_" +:+ submission_id +:+ ".pdf");
                          "size_bytes" :=
                            VInt (Z.of_nat (length (content r)));
                          "content_type" :=
                            VStr (header_get r "content-type"
                                    "application/pdf") ]}), st2)
                  else (Ret None, st2)
              | _ => (Ret None, st2)
              end
          | _ => (Ret None, st1)
          end
    end.
Proof.
  unfold download_document.
  unfold try_except at 1. unfold mbind at 1. unfold M_bind at 1.
  destruct (get_submission_status self submission_id e st) as [[status|x] st1];
    [|reflexivity].
  destruct (negb (eq_str _ _)); [reflexivity|].
  destruct (negb (truthy _)); [reflexivity|].
  destruct (dict_get status "document_url" VNone); try reflexivity.
  unfold fetch. run_M.
  destruct (http e (history st1) _) as [r|m|n m]; simpl; try reflexivity.
  by destruct (status_code r =? 200).
Qed.

(** C8.  [download_document] never raises: it returns [None] or a
    descriptor.  It returns [None] when [get_submission_status] raises, when
    the status it resolves is not [completed], and when the status is
    [completed] but the document URL is absent, empty or not a string.  With
    a document URL it fetches it once; a timeout, a transport failure or a
    status other than 200 gives [None], and a 200 gives the descriptor whose
    filename is [document_<submission_id>.pdf], whose size is the byte
    length of the content, and whose content type is the response's
    [content-type] header, [application/pdf] when there is none. *)
Theorem download_document_never_raises (self : DocuSealClient)
    (submission_id : string) (e : env) (st : state) :
  (∃ res st', download_document self submission_id e st = (Ret res, st'))
  ∧ (∀ x st1,
       get_submission_status self submission_id e st = (Raise x, st1) →
       download_document self submission_id e st = (Ret None, st1))
  ∧ (∀ status st1,
       get_submission_status self submission_id e st = (Ret status, st1) →
       (dict_get status "status" VNone ≠ VStr "completed" →
        download_document self submission_id e st = (Ret None, st1))
       ∧ (dict_get status "status" VNone = VStr "completed" →
          truthy (dict_get status "document_url" VNone) = false →
          download_document self submission_id e st = (Ret None, st1))
       ∧ (dict_get status "status" VNone = VStr "completed" →
          truthy (dict_get status "document_url" VNone) = true →
          (∀ url, dict_get status "document_url" VNone ≠ VStr url) →
          download_document self submission_id e st = (Ret None, st1))
       ∧ (∀ url,
            dict_get status "status" VNone = VStr "completed" →
            dict_get status "document_url" VNone = VStr url →
            url ≠ "" →
            let rq := get_request self url in
            let st2 := record (EvHttp rq (http e (history st1) rq)) st1 in
            match http e (history st1) rq with
            | Responded r =>
                if status_code r =? 200 then
                  download_document self submission_id e st
                  = (Ret (Some
                       {[ "download_url" := VStr url;
                          "filename" :=
                            VStr ("document_" +:+ submission_id +:+ ".pdf");
                          "size_bytes" :=
                            VInt (Z.of_nat (length (content r)));
                          "content_type" :=
                            VStr (default "application/pdf"
                                    (headers r !! "content-type")) ]}), st2)
                else download_document self submission_id e st = (Ret None, st2)
            | _ => download_document self submission_id e st = (Ret None, st2)
            end)).
Proof.
  rewrite download_document_run.
  destruct (get_submission_status self submission_id e st) as [[status|x] st1].
  - split.
    { destruct (negb (eq_str _ _)); [by eauto|].
      destruct (negb (truthy _)); [by eauto|].
      destruct (dict_get status "document_url" VNone); try by eauto.
      simpl. destruct (http e (history st1) _) as [r|m|n m]; try by eauto.
      destruct (status_code r =? 200); by eauto. }
    split; [discriminate|].
    intros ? ? [= <- <-]. repeat split.
    + intros Hs%eq_str_false. by rewrite Hs.
    + intros Hs%eq_str_true Hu. by rewrite Hs, Hu.
    + intros Hs%eq_str_true Hu Hno. rewrite Hs, Hu. simpl.
      destruct (dict_get status "document_url" VNone); try done.
      by destruct (Hno s).
    + intros url Hs%eq_str_true Hurl Hne rq st2. subst rq st2.
      rewrite Hs, Hurl. simpl.
      apply String.eqb_neq in Hne. rewrite Hne. simpl.
      destruct (http e (history st1) _) as [r|m|n m]; try done.
      by destruct (status_code r =? 200).
  - split; [by eauto|]. split; [by intros ? ? [= <- <-]|discriminate].
Qed.

(** A completed submission whose document is served, seen through
    [download_document_never_raises]. *)
Lemma download_document_witness :
  (download_document Samples.client "sub_9" Samples.completed_world
     Samples.start).1
  = Ret (Some {[ "download_url" := VStr Samples.document_url;
                 "filename" := VStr "document_sub_9.pdf";
                 "size_bytes" := VInt 4;
                 "content_type" := VStr "application/pdf" ]}).
Proof.
  destruct (download_document_never_raises Samples.client "sub_9"
              Samples.completed_world Samples.start) as (_ & _ & Hstatus).
  destruct (Hstatus _ _ eq_refl) as (_ & _ & _ & Hfetch).
  pose proof (Hfetch Samples.document_url eq_refl eq_refl) as Hdoc.
  cbv zeta in Hdoc. simpl in Hdoc. rewrite Hdoc; [reflexivity|discriminate].
Defined.

(** ** The gateway *)

(** A [try] whose handler always returns, returns. *)
Lemma try_except_returns {A : Type} (body : M A) (handler : exn → M A)
    (e : env) (s : state) :
  (∀ x e' s', ∃ a s'', handler x e' s' = (Ret a, s'')) →
  ∃ a s', try_except body handler e s = (Ret a, s').
Proof.
  intros Hh. unfold try_except. destruct (body e s) as [[a|x] s']; eauto.
Qed.

(** The background task drops every exception. *)
Lemma send_completion_notification_returns (app : Main.App)
    (submission_id : string) (signer_email : option string) (e : env)
    (st : state) :
  ∃ st', Main.send_completion_notification app submission_id signer_email e st
         = (Ret tt, st').
Proof.
  unfold Main.send_completion_notification.
  edestruct (try_except_returns (A := unit)) as ([] & st' & ->); [|by eauto].
  intros x e' s'. by exists tt, s'.
Qed.


Lemma get_document_status_run (app : Main.App) (submission_id : string)
    (e : env) (st : state) :
  Main.get_document_status app submission_id e st
  = match get_submission_status (Main.docuseal_client app) submission_id e st with
    | (Ret status, st1) =>
        (Ret {[ "submission_id" := VStr submission_id;
                "status" := dict_get status "status" VNone;
                "completed_at" := dict_get status "completed_at" VNone;
                "document_url" := dict_get status "document_url" VNone;
                "signer_email" := dict_get status "signer_email" VNone ]}, st1)
    | (Raise x, st1) =>
        (Raise (HTTPException 500
                  ("Failed to get status: "
                   +:+ match x with
                       | HTTPException c d => http_exception_str e c d
                       | TimeoutException m | Error _ m => m
                       end)), st1)
    end.
Proof.
  unfold Main.get_document_status.
  unfold try_except at 1. unfold mbind at 1. unfold M_bind at 1.
  by destruct (get_submission_status _ submission_id e st) as [[status|x] st1].
Qed.

Lemma get_submission_status_fault (self : DocuSealClient)
    (submission_id : string) (e : env) (st : state) :
  let rq := status_request self submission_id in
  let st1 := record (EvHttp rq (http e (history st) rq)) st in
  match http e (history st) rq with
  | TimedOut _ =>
      get_submission_status self submission_id e st
      = (Raise (HTTPException 504 "DocuSeal API timeout"), st1)
  | Failed _ m =>
      get_submission_status self submission_id e st
      = (Raise (HTTPException 500 ("DocuSeal error: " +:+ m)), st1)
  | Responded r =>
      if status_code r =? 200 then True
      else get_submission_status self submission_id e st
           = (Raise (HTTPException (status_code r)
                       ("DocuSeal API error: " +:+ text r)), st1)
  end.
Proof.
  intros rq st1. subst rq st1. unfold get_submission_status.
  run_M. destruct (http e (history st) _) as [r|m|n m]; simpl; try done.
  by destruct (status_code r =? 200).
Qed.

Lemma get_document_status_fault_code (app : Main.App) (submission_id : string)
    (e : env) (st : state) (x : exn) (st' : state) :
  Main.get_document_status app submission_id e st = (Raise x, st') →
  ∃ detail, x = HTTPException 500 detail.
Proof.
  rewrite get_document_status_run.
  destruct (get_submission_status _ submission_id e st) as [[status|y] st1];
    intros [= <- <-] || discriminate. by eexists.
Qed.

(** C1.  The code at the inputs on which the claim fails.  On a provider
    timeout the client raises [HTTPException(504)], and on a 404 answer it
    raises [HTTPException(404)] with the provider's body; the status
    endpoint catches either in its [except Exception] and raises
    [HTTPException(500)], with the upstream code left only inside the detail
    text.  ([get_document_status_fault_code] above: every fault of the
    endpoint has status 500.) *)
Theorem status_endpoint_drops_upstream_code :
  let timeout := Samples.world (TimedOut "timed out") None in
  let missing :=
    Samples.world (Responded (Samples.reply 404 "Not Found" (inl ""))) None in
  (get_submission_status Samples.client "sub_1" timeout Samples.start).1
  = Raise (HTTPException 504 "DocuSeal API timeout")
  ∧ (Main.get_document_status Samples.app "sub_1" timeout Samples.start).1
    = Raise (HTTPException 500
               "Failed to get status: 504: DocuSeal API timeout")
  ∧ (get_submission_status Samples.client "sub_1" missing Samples.start).1
    = Raise (HTTPException 404 "DocuSeal API error: Not Found")
  ∧ (Main.get_document_status Samples.app "sub_1" missing Samples.start).1
    = Raise (HTTPException 500
               "Failed to get status: 404: DocuSeal API error: Not Found").
Proof.
  intros timeout missing.
  pose proof (get_submission_status_fault Samples.client "sub_1" timeout
                Samples.start) as Ht.
  pose proof (get_submission_status_fault Samples.client "sub_1" missing
                Samples.start) as Hm.
  simpl in Ht, Hm.
  rewrite !get_document_status_run. simpl Main.docuseal_client.
  rewrite Ht, Hm. by repeat split.
Qed.

Lemma download_endpoint_null (app : Main.App) (submission_id : string)
    (e : env) (st st1 : state) :
  download_document (Main.docuseal_client app) submission_id e st
  = (Ret None, st1) →
  Main.download_document app submission_id e st
  = (Raise (HTTPException 500
              ("Failed to download: "
               +:+ http_exception_str e 404
                     "Document not found or not completed")), st1).
Proof.
  intros Hnull. unfold Main.download_document.
  unfold try_except at 1. unfold mbind at 1. unfold M_bind at 1.
  by rewrite Hnull.
Qed.

Lemma template_endpoint_null (app : Main.App) (template_id : string)
    (e : env) (st st1 : state) :
  get_template (Main.docuseal_client app) template_id e st = (Ret VNone, st1) →
  Main.get_template_details app template_id e st
  = (Raise (HTTPException 500
              ("Failed to get template: "
               +:+ http_exception_str e 404 "Template not found")), st1).
Proof.
  intros Hnull. unfold Main.get_template_details.
  unfold try_except at 1. unfold mbind at 1. unfold M_bind at 1.
  by rewrite Hnull.
Qed.

(** C2.  The code at the inputs on which the claim fails.  When the
    client's [download_document] returns [None], and when its [get_template]
    returns [None], the endpoint raises [HTTPException(404)] inside its own
    [try], catches it in [except Exception] and raises
    [HTTPException(500)].  ([download_endpoint_null] and
    [template_endpoint_null] above: so it is in every world.) *)
Theorem not_found_is_answered_500 :
  let pending :=
    Samples.world
      (Responded (Samples.reply 200 ""
                    (inr (VDict {[ "status" := VStr "pending" ]})))) None in
  let missing :=
    Samples.world (Responded (Samples.reply 404 "Not Found" (inl ""))) None in
  (download_document Samples.client "sub_1" pending Samples.start).1 = Ret None
  ∧ (Main.download_document Samples.app "sub_1" pending Samples.start).1
    = Raise (HTTPException 500
               "Failed to download: 404: Document not found or not completed")
  ∧ (get_template Samples.client "tmpl_1" missing Samples.start).1 = Ret VNone
  ∧ (Main.get_template_details Samples.app "tmpl_1" missing Samples.start).1
    = Raise (HTTPException 500
               "Failed to get template: 404: Template not found").
Proof.
  intros pending missing.
  assert (∃ st1, download_document Samples.client "sub_1" pending Samples.start
                 = (Ret None, st1)) as [st1 Hd].
  { eexists. rewrite download_document_run.
    unfold get_submission_status. run_M. reflexivity. }
  assert (∃ st2, get_template Samples.client "tmpl_1" missing Samples.start
                 = (Ret VNone, st2)) as [st2 Ht].
  { eexists. unfold get_template. run_M. reflexivity. }
  rewrite (download_endpoint_null Samples.app _ _ _ _ Hd).
  rewrite (template_endpoint_null Samples.app _ _ _ _ Ht).
  rewrite Hd, Ht. by repeat split.
Qed.

Lemma handle_docuseal_webhook_run
    (webhook_data : Requests.WebhookEventRequest) (e : env) (st : state) :
  Main.handle_docuseal_webhook webhook_data e st
  = (Ret {[ "status" := VStr "processed" ]},
     {| history := history st;
        background_tasks :=
          background_tasks st
          ++ (if String.eqb (Requests.event_type webhook_data) "form.completed"
              then [send_completion_notification_task
                      (Requests.submission_id webhook_data)
                      (Requests.submitter_email webhook_data)]
              else []) |}).
Proof.
  unfold Main.handle_docuseal_webhook. run_M.
  destruct (String.eqb (Requests.event_type webhook_data) "form.completed");
    simpl; [reflexivity|].
  rewrite app_nil_r.
  destruct (String.eqb (Requests.event_type webhook_data) "form.viewed"),
    (String.eqb (Requests.event_type webhook_data) "form.started");
    by destruct st.
Qed.

(** C3.  Whatever the event type, [handle_docuseal_webhook] returns the
    acknowledgement [{status: processed}] and talks to neither the provider
    nor the mail transport: the history of interactions is the one it
    started from, so nothing of the notification has run when it returns.
    For [form.completed] the queue of background tasks grows by exactly one
    task, [send_completion_notification] with the submission id and the
    submitter email of the event; for every other type, [form.viewed] and
    [form.started] among them, the queue is unchanged. *)
Theorem webhook_dispatch (webhook_data : Requests.WebhookEventRequest)
    (e : env) (st : state) :
  (Main.handle_docuseal_webhook webhook_data e st).1
  = Ret {[ "status" := VStr "processed" ]}
  ∧ history (Main.handle_docuseal_webhook webhook_data e st).2 = history st
  ∧ (Requests.event_type webhook_data = "form.completed" →
     background_tasks (Main.handle_docuseal_webhook webhook_data e st).2
     = (background_tasks st
        ++ [send_completion_notification_task
              (Requests.submission_id webhook_data)
              (Requests.submitter_email webhook_data)])%list)
  ∧ (Requests.event_type webhook_data = "form.viewed"
     ∨ Requests.event_type webhook_data = "form.started" →
     background_tasks (Main.handle_docuseal_webhook webhook_data e st).2
     = background_tasks st)
  ∧ (Requests.event_type webhook_data ≠ "form.completed" →
     background_tasks (Main.handle_docuseal_webhook webhook_data e st).2
     = background_tasks st).
Proof.
  rewrite handle_docuseal_webhook_run. simpl.
  split; [reflexivity|]. split; [reflexivity|].
  split; [by intros ->|]. split.
  - intros [-> | ->]; simpl; apply app_nil_r.
  - intros Hne%String.eqb_neq. rewrite Hne. apply app_nil_r.
Qed.

(** A webhook for a completed form, seen through [webhook_dispatch]. *)
Lemma webhook_dispatch_witness :
  background_tasks
    (Main.handle_docuseal_webhook
       {| Requests.event_type := "form.completed";
          Requests.submission_id := "sub_9";
          Requests.submitter_email := Some "a@b.com";
          Requests.document_url := None;
          Requests.timestamp := None |}
       (Samples.world (TimedOut "unreachable") (Some "unreachable"))
       Samples.start).2
  = [send_completion_notification_task "sub_9" (Some "a@b.com")].
Proof.
  destruct (webhook_dispatch
              {| Requests.event_type := "form.completed";
                 Requests.submission_id := "sub_9";
                 Requests.submitter_email := Some "a@b.com";
                 Requests.document_url := None;
                 Requests.timestamp := None |}
              (Samples.world (TimedOut "unreachable") (Some "unreachable"))
              Samples.start) as (_ & _ & Hdone & _).
  exact (Hdone eq_refl).
Defined.

Lemma dict_get_str (d : gmap string value) (k s : string) :
  eq_str (dict_get d k VNone) s = true ↔ d !! k = Some (VStr s).
Proof.
  rewrite eq_str_true. unfold dict_get.
  destruct (d !! k); simpl; split; congruence.
Qed.

Lemma client_health_check_returns (self : DocuSealClient) (e : env)
    (st : state) :
  ∃ d st1, health_check self e st = (Ret d, st1).
Proof.
  unfold health_check. destruct (negb _); [by eauto|]. run_M.
  destruct (http e (history st) _) as [r|m|n m]; simpl; [|by eauto..].
  destruct (status_code r =? 200); by eauto.
Qed.

Lemma test_connection_returns (self : EmailService.EmailService) (e : env)
    (st : state) :
  ∃ d st1, EmailService.test_connection self e st = (Ret d, st1).
Proof.
  unfold EmailService.test_connection. run_M.
  destruct (smtp e (history st) _); by eauto.
Qed.

(** The two aggregate statuses on sample worlds: a provider that answers
    200 with a mail transport that accepts the login, and the same provider
    with a transport that refuses it. *)
Example health_check_healthy :
  match (Main.health_check Samples.app
           (Samples.world (Responded (Samples.reply 200 "[]" (inr (VList []))))
              None)
           Samples.start).1 with
  | Ret report => report !! "status"
  | Raise _ => None
  end = Some (VStr "healthy").
Proof. unfold Main.health_check, health_check, test_connection. run_M. reflexivity. Qed.

Example health_check_degraded :
  match (Main.health_check Samples.app
           (Samples.world (Responded (Samples.reply 200 "[]" (inr (VList []))))
              (Some "Username and Password not accepted"))
           Samples.start).1 with
  | Ret report => report !! "status"
  | Raise _ => None
  end = Some (VStr "degraded").
Proof. unfold Main.health_check, health_check, test_connection. run_M. reflexivity. Qed.

(** C7.  The gateway [health_check] never raises.  It runs the provider
    probe, then the mail probe, and returns a report that carries both
    sub-reports; its status is [healthy] exactly when the status of both
    sub-reports is [healthy], and [degraded] otherwise. *)
Theorem health_check_aggregate (app : Main.App) (e : env) (st : state) :
  ∃ docuseal_status st1 email_status st2 report st3,
    health_check (Main.docuseal_client app) e st = (Ret docuseal_status, st1)
    ∧ EmailService.test_connection (Main.email_service app) e st1
      = (Ret email_status, st2)
    ∧ Main.health_check app e st = (Ret report, st3)
    ∧ report !! "services"
      = Some (VDict {[ "docuseal" := VDict docuseal_status;
                       "email" := VDict email_status ]})
    ∧ (report !! "status" = Some (VStr "healthy")
       ↔ docuseal_status !! "status" = Some (VStr "healthy")
         ∧ email_status !! "status" = Some (VStr "healthy"))
    ∧ (report !! "status" = Some (VStr "healthy")
       ∨ report !! "status" = Some (VStr "degraded")).
Proof.
  destruct (client_health_check_returns (Main.docuseal_client app) e st)
    as (d & st1 & Hd).
  destruct (test_connection_returns (Main.email_service app) e st1)
    as (m & st2 & Hm).
  exists d, st1, m, st2. unfold Main.health_check.
  unfold mbind at 1. unfold M_bind at 1. rewrite Hd.
  unfold mbind at 1. unfold M_bind at 1. rewrite Hm.
  run_M. do 2 eexists. do 3 (split; [reflexivity|]).
  split; [by rewrite lookup_insert_ne, lookup_insert_eq|].
  rewrite lookup_insert_eq, <- !dict_get_str.
  destruct (eq_str (dict_get d "status" VNone) "healthy"),
    (eq_str (dict_get m "status" VNone) "healthy"); simpl;
    (split; [split; [try done|by intros [??]]|by (left + right)]).
Qed.

(** ** The notifier *)

Lemma completion_html_occurs (m submission_id : string) (t : datetime)
    (document_url : value) :
  m ≠ "" →
  truthy document_url = false →
  ends_apart m completion_html_0 = true →
  starts_apart m completion_html_1 = true →
  ends_apart m completion_html_1 = true →
  starts_apart m (completion_html_2 +:+ completion_html_3) = true →
  occurs m (completion_html submission_id t document_url)
  = occurs m completion_html_0 || occurs m submission_id
    || occurs m completion_html_1 || occurs m (Datetime.strftime t)
    || occurs m (completion_html_2 +:+ completion_html_3).
Proof.
  intros Hm Hu H0 H1 H1' H2. unfold completion_html. rewrite Hu.
  by apply occurs_two_fields.
Qed.

Lemma completion_text_occurs (m submission_id : string) (t : datetime) :
  m ≠ "" →
  ends_apart m completion_text_0 = true →
  starts_apart m completion_text_1 = true →
  ends_apart m completion_text_1 = true →
  starts_apart m (completion_text_2 +:+ completion_text_3) = true →
  occurs m (completion_text submission_id t "")
  = occurs m completion_text_0 || occurs m submission_id
    || occurs m completion_text_1 || occurs m (Datetime.strftime t)
    || occurs m (completion_text_2 +:+ completion_text_3).
Proof.
  intros Hm H0 H1 H1' H2. unfold completion_text.
  by apply occurs_two_fields.
Qed.

(** A present document URL puts the link into both parts. *)
Lemma completion_email_with_url (self : EmailService)
    (recipient_email : option string) (submission_id url : string) (e : env)
    (st : state) :
  url ≠ "" →
  ∃ msg,
    let t1 := clock e (history st) in
    let st1 := record (EvClock t1) st in
    let t2 := clock e (history st1) in
    let st2 := record (EvClock t2) st1 in
    let res := smtp e (history st2) (session self (Some msg)) in
    send_completion_email self recipient_email submission_id (VStr url) e st
    = (Ret match res with None => true | Some _ => false end,
       record (EvSmtp (session self (Some msg)) res) st2)
    ∧ contains (msg_html msg) (quoted "href=`" +:+ url +:+ quoted "`")
    ∧ contains (msg_text msg) ("Download: " +:+ url).
Proof.
  intros Hurl%String.eqb_neq.
  exists {| msg_subject := completion_subject;
            msg_from := from_email self;
            msg_to := recipient_email;
            msg_text :=
              completion_text submission_id
                (clock e (history (record (EvClock (clock e (history st)))
                                     st))) ("Download: " +:+ url);
            msg_html :=
              completion_html submission_id (clock e (history st))
                (VStr url) |}.
  cbv zeta. split; [|split].
  - unfold send_completion_email, _send_email. unfold_M.
    cbn [truthy concat_download]. rewrite Hurl. simpl.
    by destruct (smtp e _ _).
  - cbn [msg_html]. unfold completion_html. cbn [truthy format].
    rewrite Hurl. cbn [negb].
    assert (∃ front back,
              completion_html_link_0 = front +:+ quoted "href=`"
              ∧ completion_html_link_1 = quoted "`" +:+ back)
      as (front & back & -> & ->).
    { exists (String.substring 0 (String.length completion_html_link_0 - 6)
                completion_html_link_0),
        (String.substring 1 (String.length completion_html_link_1 - 1)
           completion_html_link_1).
      split; vm_compute; reflexivity. }
    rewrite !append_assoc. do 6 apply contains_later.
    exists "", (back +:+ completion_html_3). by rewrite !append_assoc.
  - cbn [msg_text]. unfold completion_text. find_field.
Qed.

(** C9.  [send_completion_email] with a document URL that is [None] (or any
    falsy value) reads the clock twice and hands one message to the mail
    transport.  Its formatted part contains the submission id and the first
    clock reading, formatted; its text part contains the submission id and
    the second reading.  Neither part has the download link: the words of
    the link ([href=] and [Download]) occur in a part only if they occur in
    the submission id itself.  [send_reminder_email] hands over one message
    both parts of which contain the signing URL and the decimal days-pending
    count. *)
Theorem email_composition (self : EmailService)
    (recipient_email : option string) (submission_id : string) (e : env)
    (st : state) :
  (∀ document_url,
     truthy document_url = false →
     ∃ msg,
       let t1 := clock e (history st) in
       let st1 := record (EvClock t1) st in
       let t2 := clock e (history st1) in
       let st2 := record (EvClock t2) st1 in
       let res := smtp e (history st2) (session self (Some msg)) in
       send_completion_email self recipient_email submission_id document_url
         e st
       = (Ret match res with None => true | Some _ => false end,
          record (EvSmtp (session self (Some msg)) res) st2)
       ∧ msg_to msg = recipient_email
       ∧ contains (msg_html msg) submission_id
       ∧ contains (msg_html msg) (Datetime.strftime t1)
       ∧ occurs "href=" (msg_html msg) = occurs "href=" submission_id
       ∧ occurs "Download" (msg_html msg) = occurs "Download" submission_id
       ∧ contains (msg_text msg) submission_id
       ∧ contains (msg_text msg) (Datetime.strftime t2)
       ∧ occurs "Download" (msg_text msg) = occurs "Download" submission_id)
  ∧ (∀ signing_url days_pending,
       ∃ msg,
         let res := smtp e (history st) (session self (Some msg)) in
         send_reminder_email self recipient_email submission_id signing_url
           days_pending e st
         = (Ret match res with None => true | Some _ => false end,
            record (EvSmtp (session self (Some msg)) res) st)
         ∧ msg_to msg = recipient_email
         ∧ contains (msg_html msg) signing_url
         ∧ contains (msg_html msg) (pretty days_pending)
         ∧ contains (msg_text msg) signing_url
         ∧ contains (msg_text msg) (pretty days_pending)).
Proof.
  split.
  - intros document_url Hu.
    exists {| msg_subject := completion_subject;
              msg_from := from_email self;
              msg_to := recipient_email;
              msg_text :=
                completion_text submission_id
                  (clock e (history (record (EvClock (clock e (history st)))
                                       st))) "";
              msg_html :=
                completion_html submission_id (clock e (history st))
                  document_url |}.
    cbv zeta. split; [|split; [reflexivity|]].
    + unfold send_completion_email, _send_email. unfold_M. rewrite Hu. simpl.
      by destruct (smtp e _ _).
    + cbn [msg_html msg_text].
      split; [unfold completion_html; find_field|].
      split; [unfold completion_html; find_field|].
      split.
      { rewrite completion_html_occurs by done.
        rewrite (strftime_lacks "href=" equals_sign) by done.
        by destruct (occurs "href=" submission_id). }
      split.
      { rewrite completion_html_occurs by done.
        rewrite (strftime_lacks "Download" letter_w) by done.
        by destruct (occurs "Download" submission_id). }
      split; [unfold completion_text; find_field|].
      split; [unfold completion_text; find_field|].
      rewrite completion_text_occurs by done.
      rewrite (strftime_lacks "Download" letter_w) by done.
      by destruct (occurs "Download" submission_id).
  - intros signing_url days_pending.
    exists {| msg_subject := reminder_subject;
              msg_from := from_email self;
              msg_to := recipient_email;
              msg_text := reminder_text submission_id signing_url days_pending;
              msg_html :=
                reminder_html submission_id signing_url days_pending |}.
    cbv zeta. split; [|split; [reflexivity|]].
    + unfold send_reminder_email, _send_email. unfold_M. simpl.
      by destruct (smtp e _ _).
    + cbn [msg_html msg_text].
      repeat split; unfold reminder_html, reminder_text; find_field.
Qed.

(** A completion message with no document, seen through
    [email_composition]. *)
Lemma email_composition_witness :
  ∃ msg : email_message,
    occurs "href=" (msg_html msg) = false
    ∧ occurs "Download" (msg_text msg) = false
    ∧ contains (msg_html msg) "sub_9"
    ∧ contains (msg_text msg) "November 04, 2026 at 12:30 PM UTC"
    ∧ (send_completion_email Samples.mailer (Some "a@b.com") "sub_9" VNone
         (Samples.world (TimedOut "unreachable") None) Samples.start).1
      = Ret true.
Proof.
  destruct (email_composition Samples.mailer (Some "a@b.com") "sub_9"
              (Samples.world (TimedOut "unreachable") None) Samples.start)
    as [Hcompletion _].
  destruct (Hcompletion VNone eq_refl)
    as (msg & Hrun & _ & Hid & _ & Hhref & _ & _ & Hnow & Hdownload).
  exists msg. cbv zeta in Hrun. rewrite Hrun.
  split; [exact Hhref|]. split; [exact Hdownload|]. split; [exact Hid|].
  split; [exact Hnow|]. reflexivity.
Defined.

(** * The rest of the code *)

(** ** What an operation sends *)

Lemma state_eta (s : state) :
  s = {| history := history s ++ []; background_tasks := background_tasks s |}.
Proof. destruct s. simpl. by rewrite app_nil_r. Qed.

Lemma emits_weaken {A : Type} (Q Q' : event → Prop) (n n' : nat) (m : M A) :
  (∀ ev, Q ev → Q' ev) → (n ≤ n')%nat → emits Q n m → emits Q' n' m.
Proof.
  intros HQ Hn Hm e s. destruct (Hm e s) as (l & Hl & Hall & Hlen).
  exists l. split; [done|]. split; [|lia].
  eapply Forall_impl; [exact Hall|exact HQ].
Qed.

Lemma emits_silent {A : Type} (Q : event → Prop) (n : nat) (m : M A) :
  (∀ e s, (m e s).2 = s) → emits Q n m.
Proof.
  intros Hm e s. exists []. rewrite Hm. split; [apply state_eta|].
  split; [constructor|simpl; lia].
Qed.

Lemma emits_ret {A : Type} (Q : event → Prop) (n : nat) (a : A) :
  emits Q n (mret a).
Proof. by apply emits_silent. Qed.

Lemma emits_raise {A : Type} (Q : event → Prop) (n : nat) (x : exn) :
  emits Q n (raise x : M A).
Proof. by apply emits_silent. Qed.

Lemma emits_lift {A : Type} (Q : event → Prop) (n : nat) (o : outcome A) :
  emits Q n (lift o).
Proof. by apply emits_silent. Qed.

Lemma emits_str (Q : event → Prop) (n : nat) (x : exn) : emits Q n (str x).
Proof. by apply emits_silent. Qed.

Lemma emits_json_of (Q : event → Prop) (n : nat) (r : response) :
  emits Q n (json_of r).
Proof. apply emits_silent. intros e s. unfold json_of. by destruct (json r). Qed.

Lemma emits_one {A : Type} (Q : event → Prop) (m : M A) :
  (∀ e s, ∃ ev, (m e s).2 = record ev s ∧ Q ev) → emits Q 1 m.
Proof.
  intros Hm e s. destruct (Hm e s) as (ev & -> & Hev). exists [ev].
  split; [done|]. split; [by constructor|simpl; lia].
Qed.

Lemma emits_send (Q : event → Prop) (rq : request) :
  (∀ res, Q (EvHttp rq res)) → emits Q 1 (send rq).
Proof.
  intros HQ. apply emits_one. intros e s. exists (EvHttp rq (http e (history s) rq)).
  split; [|apply HQ]. unfold send. by destruct (http e (history s) rq).
Qed.

Lemma emits_smtp_run (Q : event → Prop) (ss : smtp_session) :
  (∀ res, Q (EvSmtp ss res)) → emits Q 1 (smtp_run ss).
Proof.
  intros HQ. apply emits_one. intros e s. exists (EvSmtp ss (smtp e (history s) ss)).
  split; [|apply HQ]. unfold smtp_run. by destruct (smtp e (history s) ss).
Qed.

Lemma emits_utcnow (Q : event → Prop) :
  (∀ now, Q (EvClock now)) → emits Q 1 utcnow.
Proof.
  intros HQ. apply emits_one. intros e s. exists (EvClock (clock e (history s))).
  split; [done|apply HQ].
Qed.

Lemma emits_bind {A B : Type} (Q : event → Prop) (n1 n2 : nat) (m : M A)
    (f : A → M B) :
  emits Q n1 m → (∀ a, emits Q n2 (f a)) → emits Q (n1 + n2) (m ≫= f).
Proof.
  intros Hm Hf e s. destruct (Hm e s) as (l1 & Hl1 & Hall1 & Hlen1).
  unfold mbind, M_bind. destruct (m e s) as [[a|x] s1]; simpl in Hl1; subst s1.
  - destruct (Hf a e {| history := history s ++ l1;
                        background_tasks := background_tasks s |})
      as (l2 & -> & Hall2 & Hlen2).
    exists (l1 ++ l2)%list. simpl. rewrite app_assoc. split; [done|].
    split; [by apply Forall_app|rewrite length_app; lia].
  - exists l1. split; [done|]. split; [done|lia].
Qed.

Lemma emits_try {A : Type} (Q : event → Prop) (n1 n2 : nat) (body : M A)
    (handler : exn → M A) :
  emits Q n1 body → (∀ x, emits Q n2 (handler x)) →
  emits Q (n1 + n2) (try_except body handler).
Proof.
  intros Hm Hh e s. destruct (Hm e s) as (l1 & Hl1 & Hall1 & Hlen1).
  unfold try_except. destruct (body e s) as [[a|x] s1]; simpl in Hl1; subst s1.
  - exists l1. split; [done|]. split; [done|lia].
  - destruct (Hh x e {| history := history s ++ l1;
                        background_tasks := background_tasks s |})
      as (l2 & -> & Hall2 & Hlen2).
    exists (l1 ++ l2)%list. simpl. rewrite app_assoc. split; [done|].
    split; [by apply Forall_app|rewrite length_app; lia].
Qed.

(** The silent steps of a body, one at a time *)
Ltac emits_step :=
  cbv beta;
  first
    [ apply emits_ret | apply emits_raise | apply emits_lift | apply emits_str
    | apply emits_json_of
    | apply (emits_bind _ 0); [|intros ?]
    | apply (emits_try _ _ 0); [|intros ?]
    | match goal with
      | |- emits _ _ (if ?b then _ else _) => destruct b
      | |- emits _ _ (match ?x with _ => _ end) => destruct x
      end ].

Ltac emits_auto := repeat emits_step.

Lemma authenticated_get (self : DocuSealClient) (url : string)
    (res : http_result) :
  authenticated self (EvHttp (get_request self url) res).
Proof. done. Qed.

Lemma get_submission_status_emits (self : DocuSealClient)
    (submission_id : string) :
  emits (authenticated self) 1 (get_submission_status self submission_id).
Proof.
  unfold get_submission_status.
  apply (emits_try _ 1 0); [|intros x; emits_auto].
  apply (emits_bind _ 1 0); [apply emits_send, authenticated_get|].
  intros r. emits_auto.
Qed.

Lemma client_health_check_emits (self : DocuSealClient) :
  emits (authenticated self) 1 (health_check self).
Proof.
  unfold health_check. destruct (negb _); [apply emits_ret|].
  apply (emits_try _ 1 0); [|intros x; emits_auto].
  apply (emits_bind _ 1 0); [apply emits_send, authenticated_get|].
  intros r. emits_auto.
Qed.

Lemma create_submission_emits (self : DocuSealClient)
    (template_id customer_email customer_name : string)
    (pre_filled_data : option (gmap string value)) :
  emits (authenticated self) 1
    (create_submission self template_id customer_email customer_name
       pre_filled_data).
Proof.
  unfold create_submission.
  apply (emits_try _ 1 0); [|intros x; emits_auto].
  apply (emits_bind _ 1 0); [by apply emits_send|].
  intros r. emits_auto.
Qed.

Lemma download_document_emits (self : DocuSealClient) (submission_id : string) :
  emits (authenticated self) 2 (download_document self submission_id).
Proof.
  unfold download_document.
  apply (emits_try _ 2 0); [|intros x; emits_auto].
  apply (emits_bind _ 1 1); [apply get_submission_status_emits|].
  intros status. cbv beta. destruct (negb _); [apply emits_ret|].
  cbv zeta. destruct (negb _); [apply emits_ret|].
  apply (emits_bind _ 1 0).
  - unfold fetch. destruct (dict_get status "document_url" VNone);
      try apply emits_raise. apply emits_send, authenticated_get.
  - intros r. emits_auto.
Qed.

Lemma get_template_emits (self : DocuSealClient) (template_id : string) :
  emits (authenticated self) 1 (get_template self template_id).
Proof.
  unfold get_template.
  apply (emits_try _ 1 0); [|intros x; emits_auto].
  apply (emits_bind _ 1 0); [apply emits_send, authenticated_get|].
  intros r. emits_auto.
Qed.

Lemma list_templates_emits (self : DocuSealClient) :
  emits (authenticated self) 1 (TemplateListing.list_templates self).
Proof.
  unfold TemplateListing.list_templates.
  apply (emits_try _ 1 0); [|intros x; emits_auto].
  apply (emits_bind _ 1 0); [apply emits_send, authenticated_get|].
  intros r. emits_auto.
Qed.

(** X1.  Every operation of the provider client talks to the provider and
    to nothing else: whatever the world answers, it adds at most one call to
    the history ([download_document] at most two: the status read and the
    fetch), each call carries the client's token in [X-Auth-Token] and the
    client's timeout, and the task queue is left as it was. *)
Theorem client_calls_carry_the_token (self : DocuSealClient) :
  emits (authenticated self) 1 (health_check self)
  ∧ (∀ template_id customer_email customer_name pre_filled_data,
       emits (authenticated self) 1
         (create_submission self template_id customer_email customer_name
            pre_filled_data))
  ∧ (∀ submission_id,
       emits (authenticated self) 1 (get_submission_status self submission_id)
       ∧ emits (authenticated self) 2 (download_document self submission_id)
       ∧ emits (authenticated self) 1 (cancel_submission self submission_id))
  ∧ (∀ template_id, emits (authenticated self) 1 (get_template self template_id))
  ∧ emits (authenticated self) 1 (TemplateListing.list_templates self).
Proof.
  split; [apply client_health_check_emits|].
  split; [intros; apply create_submission_emits|].
  split; [|split; [intros; apply get_template_emits|apply list_templates_emits]].
  intros id. split; [apply get_submission_status_emits|].
  split; [apply download_document_emits|].
  unfold cancel_submission.
  apply (emits_try _ 1 0); [|intros x; emits_auto].
  apply (emits_bind _ 1 0); [by apply emits_send|].
  intros r. emits_auto.
Qed.

Lemma configured_session (self : EmailService) (msg : option email_message)
    (res : option string) :
  configured self (EvSmtp (session self msg) res).
Proof. done. Qed.

Lemma send_email_emits (self : EmailService) (recipient_email : option string)
    (subject html_body text_body : string) :
  emits (configured self) 1
    (_send_email self recipient_email subject html_body text_body).
Proof.
  unfold _send_email.
  apply (emits_try _ 1 0); [|intros x; emits_auto].
  apply (emits_bind _ 1 0); [apply emits_smtp_run, configured_session|].
  intros []. emits_auto.
Qed.

Lemma send_completion_email_emits (self : EmailService)
    (recipient_email : option string) (submission_id : string)
    (document_url : value) :
  emits (configured self) 3
    (send_completion_email self recipient_email submission_id document_url).
Proof.
  unfold send_completion_email.
  apply (emits_try _ 3 0); [|intros x; emits_auto].
  apply (emits_bind _ 1 2); [by apply emits_utcnow|]. intros t1. cbv zeta.
  apply (emits_bind _ 1 1); [by apply emits_utcnow|]. intros t2.
  apply (emits_bind _ 0 1); [|intros link; apply send_email_emits].
  emits_auto.
Qed.

(** X2.  The notifier only opens mail sessions with its own host, port, user
    name and password, and reads the clock: [test_connection] and
    [send_reminder_email] add at most one such event to the history,
    [send_completion_email] at most three (two clock readings and the
    session); none of them calls the provider or touches the task queue. *)
Theorem notifier_sessions_use_the_configuration (self : EmailService) :
  emits (configured self) 1 (test_connection self)
  ∧ (∀ recipient_email submission_id document_url,
       emits (configured self) 3
         (send_completion_email self recipient_email submission_id
            document_url))
  ∧ (∀ recipient_email submission_id signing_url days_pending,
       emits (configured self) 1
         (send_reminder_email self recipient_email submission_id signing_url
            days_pending)).
Proof.
  split; [|split].
  - unfold test_connection.
    apply (emits_try _ 1 0); [|intros x; emits_auto].
    apply (emits_bind _ 1 0); [apply emits_smtp_run, configured_session|].
    intros []. emits_auto.
  - intros to id url. apply send_completion_email_emits.
  - intros to id url days. unfold send_reminder_email.
    apply (emits_try _ 1 0); [apply send_email_emits|intros x; emits_auto].
Qed.

(** ** The remaining client operations *)

(** X3.  [cancel_submission] never raises.  It sends one [DELETE] for
    [<base_url>/api/submissions/<id>] with the token, and returns [True]
    exactly when the provider answered with status 200; a timeout, a
    transport failure and any other status give [False]. *)
Theorem cancel_submission_result (self : DocuSealClient)
    (submission_id : string) (e : env) (st : state) :
  let rq := {| req_method := DELETE;
               req_url := base_url self +:+ "/api/submissions/"
                          +:+ submission_id;
               req_headers := auth_headers self;
               req_json := None;
               req_timeout := timeout self |} in
  ∃ b,
    cancel_submission self submission_id e st
    = (Ret b, record (EvHttp rq (http e (history st) rq)) st)
    ∧ (b = true
       ↔ ∃ r, http e (history st) rq = Responded r ∧ status_code r = 200).
Proof.
  intros rq. subst rq. unfold cancel_submission. unfold_M. simpl.
  destruct (http e (history st) _) as [r|m|n m]; simpl.
  - eexists. split; [reflexivity|]. rewrite Z.eqb_eq. split.
    + intros H. by exists r.
    + by intros (r' & [= <-] & H).
  - exists false. split; [done|]. split; [done|]. by intros (r & ? & _).
  - exists false. split; [done|]. split; [done|]. by intros (r & ? & _).
Qed.

Lemma get_template_run (self : DocuSealClient) (template_id : string)
    (e : env) (st : state) :
  let rq := get_request self
              (base_url self +:+ "/api/templates/" +:+ template_id) in
  get_template self template_id e st
  = (Ret match http e (history st) rq with
         | Responded r =>
             if status_code r =? 200 then
               match json r with
               | inr body => body
               | inl _ => VNone
               end
             else VNone
         | _ => VNone
         end,
     record (EvHttp rq (http e (history st) rq)) st).
Proof.
  intros rq. subst rq. unfold get_template. unfold_M. simpl.
  destruct (http e (history st) _) as [r|m|n m]; simpl; try done.
  destruct (status_code r =? 200); [|done]. by destruct (json r).
Qed.

(** X4.  [get_template] never raises.  It sends one [GET] for
    [<base_url>/api/templates/<id>]; on a 200 answer whose body decodes it
    returns the decoded body, and whenever it returns something other than
    [None] that is what happened. *)
Theorem get_template_result (self : DocuSealClient) (template_id : string)
    (e : env) (st : state) :
  let rq := get_request self
              (base_url self +:+ "/api/templates/" +:+ template_id) in
  ∃ template,
    get_template self template_id e st
    = (Ret template, record (EvHttp rq (http e (history st) rq)) st)
    ∧ (∀ r body, http e (history st) rq = Responded r → status_code r = 200 →
                 json r = inr body → template = body)
    ∧ (template ≠ VNone →
       ∃ r, http e (history st) rq = Responded r ∧ status_code r = 200
            ∧ json r = inr template).
Proof.
  cbv zeta. rewrite get_template_run. cbv zeta. eexists.
  split; [reflexivity|].
  destruct (http e (history st) _) as [r|m|n m]; [|by split..].
  destruct (Z.eqb_spec (status_code r) 200) as [Hc|Hc].
  - destruct (json r) as [m|body] eqn:Hj.
    + split; [|done]. intros r' body [= <-] _ Hj'. congruence.
    + split; [|by exists r]. intros r' body' [= <-] _ Hj'. congruence.
  - split; [|done]. by intros r' body [= <-] ?.
Qed.

(** X5.  The client's [health_check] always returns a report whose status
    is [healthy] or [error]; it is [healthy] exactly when a token is
    configured and the provider answered 200.  With a token, a timeout is
    reported as [Connection timeout] and a non-200 answer as
    [HTTP <status>: <body>]. *)
Theorem client_health_check_report (self : DocuSealClient) (e : env)
    (st : state) :
  let rq := get_request self (base_url self +:+ "/api/templates") in
  ∃ report st',
    health_check self e st = (Ret report, st')
    ∧ (report !! "status" = Some (VStr "healthy")
       ∨ report !! "status" = Some (VStr "error"))
    ∧ (report !! "status" = Some (VStr "healthy")
       ↔ api_token self ≠ ""
         ∧ ∃ r, http e (history st) rq = Responded r ∧ status_code r = 200)
    ∧ (api_token self ≠ "" →
       ∀ m, http e (history st) rq = TimedOut m →
            report !! "error" = Some (VStr "Connection timeout"))
    ∧ (api_token self ≠ "" →
       ∀ r, http e (history st) rq = Responded r → status_code r ≠ 200 →
            report !! "error"
            = Some (VStr ("HTTP " +:+ pretty (status_code r) +:+ ": "
                          +:+ text r))).
Proof.
  intros rq. subst rq. unfold health_check. simpl.
  destruct (String.eqb_spec (api_token self) "") as [Htok|Htok]; simpl.
  - do 2 eexists. split; [reflexivity|]. split; [by right|].
    split; [|split; by intros ?]. split; [done|]. by intros [? _].
  - unfold_M. simpl.
    destruct (http e (history st) _) as [r|m|n m]; simpl.
    + destruct (Z.eqb_spec (status_code r) 200) as [Hc|Hc].
      * do 2 eexists. split; [reflexivity|]. split; [by left|].
        split; [|split; [by intros _ ? ?|by intros _ ? [= <-] ?]].
        split; [|done]. intros _. split; [done|]. by exists r.
      * do 2 eexists. split; [reflexivity|]. split; [by right|].
        split; [|split; [by intros _ ? ?|by intros _ ? [= <-] ?]].
        split; [done|]. by intros (_ & r' & [= <-] & ?).
    + do 2 eexists. split; [reflexivity|]. split; [by right|].
      split; [|split; [by intros _ ? ?|by intros _ ? ? ?]].
      split; [done|]. by intros (_ & r' & ? & ?).
    + do 2 eexists. split; [reflexivity|]. split; [by right|].
      split; [|split; [by intros _ ? ?|by intros _ ? ? ?]].
      split; [done|]. by intros (_ & r' & ? & ?).
Qed.

(** ** The status read *)

(** What a [try] raises, its handler raised. *)
Lemma try_except_raises {A : Type} (P : exn → Prop) (body : M A)
    (handler : exn → M A) (e : env) (s : state) (y : exn) (s' : state) :
  (∀ x e1 s1 y1 s2, handler x e1 s1 = (Raise y1, s2) → P y1) →
  try_except body handler e s = (Raise y, s') → P y.
Proof.
  intros Hh. unfold try_except. destruct (body e s) as [[a|x] s1]; [done|].
  apply Hh.
Qed.

(** X6.  Whatever [get_submission_status] raises is an [HTTPException]:
    504 on a timeout, the provider's own status code on a non-200 answer,
    and 500 on a transport failure and on a 200 answer whose body does not
    decode. *)
Theorem get_submission_status_raises_only_http (self : DocuSealClient)
    (submission_id : string) (e : env) (st : state) :
  let rq := status_request self submission_id in
  (∀ x st', get_submission_status self submission_id e st = (Raise x, st') →
            ∃ code detail, x = HTTPException code detail)
  ∧ (∀ m, http e (history st) rq = TimedOut m →
          (get_submission_status self submission_id e st).1
          = Raise (HTTPException 504 "DocuSeal API timeout"))
  ∧ (∀ n m, http e (history st) rq = Failed n m →
            (get_submission_status self submission_id e st).1
            = Raise (HTTPException 500 ("DocuSeal error: " +:+ m)))
  ∧ (∀ r, http e (history st) rq = Responded r → status_code r ≠ 200 →
          (get_submission_status self submission_id e st).1
          = Raise (HTTPException (status_code r)
                     ("DocuSeal API error: " +:+ text r)))
  ∧ (∀ r m, http e (history st) rq = Responded r → status_code r = 200 →
            json r = inl m →
            (get_submission_status self submission_id e st).1
            = Raise (HTTPException 500 ("DocuSeal error: " +:+ m))).
Proof.
  intros rq. subst rq.
  pose proof (get_submission_status_fault self submission_id e st) as Hf.
  cbv zeta in Hf. split; [|split; [|split; [|split]]].
  - intros x st'. unfold get_submission_status.
    apply (try_except_raises (λ y, ∃ code detail, y = HTTPException code detail)).
    intros [c d|m|n m] e' s' y s'' [= <- _]; by eauto.
  - intros m Hres. rewrite Hres in Hf. by rewrite Hf.
  - intros n m Hres. rewrite Hres in Hf. by rewrite Hf.
  - intros r Hres Hc%Z.eqb_neq. rewrite Hres, Hc in Hf. by rewrite Hf.
  - intros r m Hres Hc Hj. unfold get_submission_status. unfold_M. simpl.
    by rewrite Hres, Hc, Hj.
Qed.

(** X7.  On a 200 answer that decodes to an object, [get_submission_status]
    returns the five fields read from it: [status] and [completed_at] from
    the top level, [document_url] from the first document, [signer_email]
    from the first submitter and [template_name] from the template, each
    [None] when absent; an absent list or template counts as an empty
    entry. *)
Theorem get_submission_status_fields (self : DocuSealClient)
    (submission_id : string) (e : env) (st : state) (r : response)
    (body document submitter template : gmap string value) :
  http e (history st) (status_request self submission_id) = Responded r →
  status_code r = 200 →
  json r = inr (VDict body) →
  first_entry body "documents" = Some document →
  first_entry body "submitters" = Some submitter →
  dict_get body "template" (VDict ∅) = VDict template →
  get_submission_status self submission_id e st
  = (Ret {[ "status" := dict_get body "status" VNone;
            "completed_at" := dict_get body "completed_at" VNone;
            "document_url" := dict_get document "url" VNone;
            "signer_email" := dict_get submitter "email" VNone;
            "template_name" := dict_get template "name" VNone ]},
     record (EvHttp (status_request self submission_id) (Responded r)) st).
Proof.
  intros Hres Hc Hj Hd Hs Ht. unfold get_submission_status. unfold_M. simpl.
  rewrite Hres, Hc, Hj. simpl. unfold first_entry in Hd, Hs.
  destruct (dict_get body "documents" _)
    as [| | | | |[|[| | | | | |d] l]|]; try discriminate.
  injection Hd as ->. simpl.
  destruct (dict_get body "submitters" _)
    as [| | | | |[|[| | | | | |d] l']|]; try discriminate.
  injection Hs as ->. simpl. by rewrite Ht.
Qed.

(** A pending submission with neither documents nor submitters nor
    template *)
Lemma get_submission_status_fields_witness :
  (get_submission_status Samples.client "sub_1"
     (Samples.world
        (Responded
           (Samples.reply 200 ""
              (inr (VDict {[ "status" := VStr "pending" ]})))) None)
     Samples.start).1
  = Ret {[ "status" := VStr "pending";
           "completed_at" := VNone;
           "document_url" := VNone;
           "signer_email" := VNone;
           "template_name" := VNone ]}.
Proof.
  rewrite (get_submission_status_fields Samples.client "sub_1"
                (Samples.world
                   (Responded
                      (Samples.reply 200 ""
                         (inr (VDict {[ "status" := VStr "pending" ]}))))
                   None)
                Samples.start
                (Samples.reply 200 ""
                   (inr (VDict {[ "status" := VStr "pending" ]})))
                {[ "status" := VStr "pending" ]} ∅ ∅ ∅);
    reflexivity.
Defined.

(** ** The rest of the gateway *)

Lemma handler_500 (prefix : string) (x : exn) (e : env) (s : state) (y : exn)
    (s' : state) :
  (msg ← str x; raise (HTTPException 500 (prefix +:+ msg)) : M (gmap string value))
    e s = (Raise y, s') →
  ∃ detail, y = HTTPException 500 detail.
Proof. unfold_M. intros [= <- _]. by eauto. Qed.

(** X8.  Every fault of the gateway's endpoints has status 500:
    [initiate_document_signing], [get_document_status], [download_document]
    and [get_template_details] raise nothing but [HTTPException 500], and
    [handle_docuseal_webhook] and [list_templates] raise nothing at all. *)
Theorem endpoint_faults_are_500 (app : Main.App) (e : env) (st : state)
    (x : exn) (st' : state) :
  (∀ request_data,
     Main.initiate_document_signing app request_data e st = (Raise x, st') →
     ∃ detail, x = HTTPException 500 detail)
  ∧ (∀ submission_id,
       (Main.get_document_status app submission_id e st = (Raise x, st') →
        ∃ detail, x = HTTPException 500 detail)
       ∧ (Main.download_document app submission_id e st = (Raise x, st') →
          ∃ detail, x = HTTPException 500 detail))
  ∧ (∀ template_id,
       Main.get_template_details app template_id e st = (Raise x, st') →
       ∃ detail, x = HTTPException 500 detail)
  ∧ (∀ webhook_data,
       Main.handle_docuseal_webhook webhook_data e st ≠ (Raise x, st'))
  ∧ Endpoints.list_templates app e st ≠ (Raise x, st').
Proof.
  split; [|split; [|split; [|split]]].
  - intros rq. unfold Main.initiate_document_signing.
    apply (try_except_raises (λ y, ∃ detail, y = HTTPException 500 detail)).
    intros ? ? ? ? ?. apply handler_500.
  - intros id. split.
    + unfold Main.get_document_status.
      apply (try_except_raises (λ y, ∃ detail, y = HTTPException 500 detail)).
      intros ? ? ? ? ?. apply handler_500.
    + unfold Main.download_document.
      apply (try_except_raises (λ y, ∃ detail, y = HTTPException 500 detail)).
      intros ? ? ? ? ?. apply handler_500.
  - intros tid. unfold Main.get_template_details.
    apply (try_except_raises (λ y, ∃ detail, y = HTTPException 500 detail)).
    intros ? ? ? ? ?. apply handler_500.
  - intros w. by rewrite handle_docuseal_webhook_run.
  - unfold Endpoints.list_templates. unfold try_except at 1.
    unfold mbind at 1. unfold M_bind at 1.
    destruct (try_except_returns (A := list value)
                (response ← send (get_request (Main.docuseal_client app)
                                    (base_url (Main.docuseal_client app)
                                     +:+ "/api/templates"));
                 if status_code response =? 200 then
                   templates ← json_of response;
                   items ← lift (Builtins.iterate templates);
                   lift (Builtins.comprehension TemplateListing.summary items)
                 else mret [])
                (λ _, mret []) e st) as (l & s1 & Hl).
    { intros ? e' s'. by exists [], s'. }
    unfold TemplateListing.list_templates. by rewrite Hl.
Qed.

(** X9.  [initiate_document_signing] follows the result of
    [create_submission].  A result without a true [success] is answered by
    [HTTPException 500] whose detail wraps the result's [error] twice
    (the 500 raised for it inside the [try] is caught and printed by the
    catch-all); a successful result is answered with its [submission_id]
    and [signing_url], the status [initiated] and a message naming the
    customer's address. *)
Theorem initiate_document_signing_result (app : Main.App)
    (request_data : Requests.DocumentInitiateRequest) (e : env)
    (st st1 : state) (result : gmap string value) :
  create_submission (Main.docuseal_client app)
    (Requests.template_id request_data) (Requests.customer_email request_data)
    (Requests.customer_name request_data) (Requests.form_data request_data)
    e st = (Ret result, st1) →
  (truthy (dict_get result "success" VNone) = false →
   Main.initiate_document_signing app request_data e st
   = (Raise (HTTPException 500
               ("Failed to initiate document: "
                +:+ http_exception_str e 500
                      ("DocuSeal submission failed: "
                       +:+ format (dict_get result "error" VNone)))), st1))
  ∧ (truthy (dict_get result "success" VNone) = true →
     ∀ submission_id, result !! "submission_id" = Some submission_id →
       Main.initiate_document_signing app request_data e st
       = (Ret {[ "submission_id" := submission_id;
                 "signing_url" := dict_get result "signing_url" VNone;
                 "status" := VStr "initiated";
                 "message" :=
                   VStr ("Document sent to "
                         +:+ Requests.customer_email request_data) ]}, st1)).
Proof.
  intros Hrun. unfold Main.initiate_document_signing.
  split; [intros Ht|intros Ht id Hid];
    unfold try_except at 1; unfold mbind at 1; unfold M_bind at 1;
    rewrite Hrun; cbv beta; rewrite Ht; simpl; [done|by rewrite Hid].
Qed.

(** A provider that rejects the template with 422 *)
Lemma initiate_document_signing_result_witness :
  (Main.initiate_document_signing Samples.app
     {| Requests.template_id := "tmpl_1";
        Requests.customer_email := "a@b.com";
        Requests.customer_name := "A B";
        Requests.form_data := None |}
     (Samples.world (Responded (Samples.reply 422 "bad template" (inl "")))
        None)
     Samples.start).1
  = Raise (HTTPException 500
             "Failed to initiate document: 500: DocuSeal submission failed: HTTP 422: bad template").
Proof.
  destruct (initiate_document_signing_result Samples.app
              {| Requests.template_id := "tmpl_1";
                 Requests.customer_email := "a@b.com";
                 Requests.customer_name := "A B";
                 Requests.form_data := None |}
              (Samples.world
                 (Responded (Samples.reply 422 "bad template" (inl ""))) None)
              Samples.start _ _ eq_refl) as [Hfail _].
  rewrite (Hfail eq_refl). reflexivity.
Defined.

Lemma send_completion_notification_run (app : Main.App)
    (submission_id : string) (signer_email : option string) (e : env)
    (st : state) :
  Main.send_completion_notification app submission_id signer_email e st
  = match get_submission_status (Main.docuseal_client app) submission_id e st
    with
    | (Ret status, st1) =>
        (Ret tt,
         (send_completion_email (Main.email_service app) signer_email
            submission_id (dict_get status "document_url" VNone) e st1).2)
    | (Raise _, st1) => (Ret tt, st1)
    end.
Proof.
  unfold Main.send_completion_notification, try_except, mbind, M_bind.
  destruct (get_submission_status _ submission_id e st) as [[status|x] st1];
    [|done].
  by destruct (send_completion_email _ _ _ _ e st1) as [[b|y] st2].
Qed.

(** X10.  The background task [send_completion_notification] always returns.
    When the status read raises, nothing more happens; when it returns, the
    task sends the completion mail with the [document_url] of that status,
    whatever the status says, and nothing after it. *)
Theorem send_completion_notification_steps (app : Main.App)
    (submission_id : string) (signer_email : option string) (e : env)
    (st : state) :
  (∃ st', Main.send_completion_notification app submission_id signer_email e st
          = (Ret tt, st'))
  ∧ (∀ x st1,
       get_submission_status (Main.docuseal_client app) submission_id e st
       = (Raise x, st1) →
       Main.send_completion_notification app submission_id signer_email e st
       = (Ret tt, st1))
  ∧ (∀ status st1,
       get_submission_status (Main.docuseal_client app) submission_id e st
       = (Ret status, st1) →
       (Main.send_completion_notification app submission_id signer_email e
          st).2
       = (send_completion_email (Main.email_service app) signer_email
            submission_id (dict_get status "document_url" VNone) e st1).2).
Proof.
  rewrite send_completion_notification_run.
  destruct (get_submission_status _ submission_id e st) as [[status|x] st1].
  - split; [by eauto|]. split; [discriminate|]. by intros ? ? [= <- <-].
  - split; [by eauto|]. split; [by intros ? ? [= <- <-]|discriminate].
Qed.

(** X11.  [handle_docuseal_webhook] reads the event type, the submission id
    and the submitter's address of the payload and nothing else: two
    payloads that agree on these three are handled alike, in any two
    worlds.  The payload's [document_url] and [timestamp] are ignored. *)
Theorem webhook_ignores_payload_document
    (w1 w2 : Requests.WebhookEventRequest) (e1 e2 : env) (st : state) :
  Requests.event_type w1 = Requests.event_type w2 →
  Requests.submission_id w1 = Requests.submission_id w2 →
  Requests.submitter_email w1 = Requests.submitter_email w2 →
  Main.handle_docuseal_webhook w1 e1 st = Main.handle_docuseal_webhook w2 e2 st.
Proof.
  intros Ht Hi Hs. rewrite !handle_docuseal_webhook_run. by rewrite Ht, Hi, Hs.
Qed.

(** Two completions of the same submission, one with a document URL and
    a timestamp, in two different worlds *)
Lemma webhook_ignores_payload_document_witness :
  Main.handle_docuseal_webhook
    {| Requests.event_type := "form.completed";
       Requests.submission_id := "sub_9";
       Requests.submitter_email := Some "a@b.com";
       Requests.document_url := Some "https://elsewhere.example/d.pdf";
       Requests.timestamp := Some Samples.noon |}
    (Samples.world (TimedOut "unreachable") None) Samples.start
  = Main.handle_docuseal_webhook
      {| Requests.event_type := "form.completed";
         Requests.submission_id := "sub_9";
         Requests.submitter_email := Some "a@b.com";
         Requests.document_url := None;
         Requests.timestamp := None |}
      Samples.completed_world Samples.start.
Proof.
  apply webhook_ignores_payload_document; reflexivity.
Defined.

Lemma client_health_check_trace (self : DocuSealClient) (e : env)
    (st : state) :
  ∃ d calls,
    health_check self e st
    = (Ret d, {| history := history st ++ calls;
                 background_tasks := background_tasks st |})
    ∧ (length calls ≤ 1)%nat
    ∧ Forall (authenticated self) calls
    ∧ (api_token self = "" → calls = []).
Proof.
  unfold health_check.
  destruct (String.eqb_spec (api_token self) "") as [Htok|Htok].
  - rewrite Htok. simpl. unfold_M. eexists. exists [].
    rewrite app_nil_r. destruct st. simpl. repeat split; [lia|constructor].
  - assert (truthy (VStr (api_token self)) = true) as ->.
    { simpl. by destruct (api_token self). }
    simpl. unfold_M. unfold record. simpl.
    destruct (http e (history st) _) as [r|m|n m] eqn:Hr; simpl;
      [destruct (status_code r =? 200); simpl|..];
      (do 2 eexists; split; [reflexivity|]; split; [simpl; lia|];
       split; [by repeat constructor|done]).
Qed.

Lemma test_connection_trace (self : EmailService.EmailService) (e : env)
    (st : state) :
  ∃ d res,
    test_connection self e st
    = (Ret d, record (EvSmtp (session self None) res) st).
Proof.
  unfold test_connection. unfold_M.
  destruct (smtp e (history st) _) eqn:Hs; simpl; by eauto.
Qed.

(** X12.  The gateway's [health_check] runs both probes, in this order, and
    then reads the clock: the history grows by at most one provider call
    carrying the token (none when the token is empty), then the mail
    session of [test_connection], then the clock reading.  The mail probe
    runs whatever the provider probe found. *)
Theorem health_check_runs_both_probes (app : Main.App) (e : env) (st : state) :
  ∃ (calls : list event) (res : option string) (now : datetime),
    history (Main.health_check app e st).2
    = (history st ++ calls
       ++ [EvSmtp (session (Main.email_service app) None) res; EvClock now])%list
    ∧ (length calls ≤ 1)%nat
    ∧ Forall (authenticated (Main.docuseal_client app)) calls
    ∧ (api_token (Main.docuseal_client app) = "" → calls = []).
Proof.
  destruct (client_health_check_trace (Main.docuseal_client app) e st)
    as (d & calls & Hd & Hlen & Hauth & Hnone).
  destruct (test_connection_trace (Main.email_service app) e
              {| history := history st ++ calls;
                 background_tasks := background_tasks st |})
    as (m & res & Hm).
  exists calls, res. eexists.
  unfold Main.health_check.
  unfold mbind at 1. unfold M_bind at 1. rewrite Hd.
  unfold mbind at 1. unfold M_bind at 1. rewrite Hm.
  run_M. split; [|done]. by rewrite <- !app_assoc.
Qed.

Lemma gateway_health_check_run (app : Main.App) (e : env) (st : state) :
  ∃ report st',
    Main.health_check app e st = (Ret report, st')
    ∧ (report !! "status" = Some (VStr "healthy")
       ∨ report !! "status" = Some (VStr "degraded"))
    ∧ ∃ v, report !! "services" = Some v.
Proof.
  destruct (client_health_check_returns (Main.docuseal_client app) e st)
    as (d & st1 & Hd).
  destruct (test_connection_returns (Main.email_service app) e st1)
    as (m & st2 & Hm).
  unfold Main.health_check.
  unfold mbind at 1. unfold M_bind at 1. rewrite Hd.
  unfold mbind at 1. unfold M_bind at 1. rewrite Hm.
  run_M. do 2 eexists. split; [reflexivity|].
  rewrite lookup_insert_eq, lookup_insert_ne, lookup_insert_eq by done.
  split; [|by eauto].
  by destruct (eq_str (dict_get d "status" VNone) "healthy"),
    (eq_str (dict_get m "status" VNone) "healthy"); simpl; (left + right).
Qed.

(** X13.  [startup_event] never raises: the keys [status] and [services]
    that it reads from the health report are always there.  It does what
    [health_check] does and nothing more. *)
Theorem startup_event_returns (app : Main.App) (e : env) (st : state) :
  Endpoints.startup_event app e st = (Ret tt, (Main.health_check app e st).2).
Proof.
  destruct (gateway_health_check_run app e st)
    as (report & st' & Hrun & Hstatus & Hservices).
  unfold Endpoints.startup_event. unfold mbind at 1. unfold M_bind at 1.
  rewrite Hrun. simpl. unfold Endpoints.item, mbind, M_bind.
  destruct Hstatus as [Hs|Hs]; rewrite Hs; simpl; [done|].
  destruct Hservices as [v ->]. done.
Qed.

(** ** The base URL *)

Lemma slash_eqb (c : Ascii.ascii) :
  String.eqb (String c "") "/" = true → c = Ascii.ascii_of_nat 47.
Proof. intros H%String.eqb_eq. by injection H. Qed.

Lemma rstrip_slash_no_trailing (s : string) :
  ends_with_slash (rstrip_slash s) = false.
Proof.
  induction s as [|c s IH]; [done|]. cbn [rstrip_slash].
  destruct (rstrip_slash s) as [|c' t] eqn:Hs.
  - destruct (String.eqb (String c "") "/") eqn:Hc; [done|]. simpl. exact Hc.
  - exact IH.
Qed.

Lemma rstrip_slash_suffix (s : string) :
  ∃ n, s = rstrip_slash s +:+ slashes n.
Proof.
  induction s as [|c s [n IH]]; [by exists 0%nat|]. cbn [rstrip_slash].
  destruct (rstrip_slash s) as [|c' t] eqn:Hs.
  - change s with ("" +:+ s) in IH at 1. apply (inj (String.append "")) in IH.
    destruct (String.eqb (String c "") "/") eqn:Hc.
    + exists (S n). apply slash_eqb in Hc. by subst.
    + exists n. by rewrite append_cons, IH.
  - exists n. by rewrite append_cons, <- IH.
Qed.

Lemma rstrip_slash_fixed (s : string) :
  ends_with_slash s = false → rstrip_slash s = s.
Proof.
  induction s as [|c s IH]; [done|]. intros Hs. cbn [rstrip_slash].
  destruct s as [|c' t].
  - simpl in *. by rewrite Hs.
  - rewrite IH by exact Hs. done.
Qed.

(** X14.  The constructor removes the trailing slashes of the base URL and
    nothing else: the stored URL does not end with a slash, the given URL is
    the stored one followed by slashes only, a URL without a trailing slash
    is stored as it is, and constructing again from the stored URL changes
    nothing. *)
Theorem init_strips_trailing_slashes (url token : string) :
  let self := init url token in
  ends_with_slash (base_url self) = false
  ∧ (∃ n, url = base_url self +:+ slashes n)
  ∧ (ends_with_slash url = false → base_url self = url)
  ∧ init (base_url self) token = self.
Proof.
  cbv zeta. unfold init. cbn [base_url].
  split; [apply rstrip_slash_no_trailing|].
  split; [apply rstrip_slash_suffix|].
  split; [apply rstrip_slash_fixed|].
  by rewrite (rstrip_slash_fixed _ (rstrip_slash_no_trailing url)).
Qed.

(** ** The request of [create_submission] *)

(** X15.  [create_submission] makes exactly one call, a [POST] to
    [<base_url>/api/submissions] with a JSON content type.  Its body holds
    the template id, [send_email: true] and one submitter with role
    [Customer] and the customer's address and name; it holds [fields]
    exactly when pre-filled data is given and not empty, and no other
    key. *)
Theorem create_submission_request_body (self : DocuSealClient)
    (template_id customer_email customer_name : string)
    (pre_filled_data : option (gmap string value)) (e : env) (st : state) :
  ∃ payload res,
    (create_submission self template_id customer_email customer_name
       pre_filled_data e st).2
    = record (EvHttp {| req_method := POST;
                        req_url := base_url self +:+ "/api/submissions";
                        req_headers :=
                          {[ "X-Auth-Token" := api_token self;
                             "Content-Type" := "application/json" ]};
                        req_json := Some (VDict payload);
                        req_timeout := timeout self |} res) st
    ∧ payload !! "template_id" = Some (VStr template_id)
    ∧ payload !! "send_email" = Some (VBool true)
    ∧ payload !! "submitters"
      = Some (VList [VDict {[ "role" := VStr "Customer";
                              "email" := VStr customer_email;
                              "name" := VStr customer_name ]}])
    ∧ (∀ v, payload !! "fields" = Some v
            ↔ ∃ d, pre_filled_data = Some d ∧ d ≠ ∅ ∧ v = VDict d)
    ∧ (∀ k, k ≠ "template_id" → k ≠ "send_email" → k ≠ "submitters" →
            k ≠ "fields" → payload !! k = None).
Proof.
  exists (create_payload template_id customer_email customer_name
            pre_filled_data),
    (http e (history st)
       (create_request self template_id customer_email customer_name
          pre_filled_data)).
  split.
  { unfold create_submission, create_request. unfold_M. simpl.
    destruct (http e (history st) _) as [r|m|n m]; simpl; [|done..].
    destruct (status_code r =? 201); simpl; [|done].
    destruct (json r) as [m|v]; simpl; [done|].
    destruct (get v "id" VNone) as [a|x]; simpl; [|by destruct x].
    destruct (get v "submitters" _) as [b|x]; simpl; [|by destruct x].
    destruct (subscript0 b) as [c|x]; simpl; [|by destruct x].
    by destruct (get c "embed_src" VNone) as [d|x]; simpl; [|destruct x]. }
  unfold create_payload.
  assert (∀ k : string,
            k ≠ "template_id" → k ≠ "send_email" → k ≠ "submitters" →
            ({[ "template_id" := VStr template_id;
                "send_email" := VBool true;
                "submitters" :=
                  VList [VDict {[ "role" := VStr "Customer";
                                  "email" := VStr customer_email;
                                  "name" := VStr customer_name ]}] ]}
             : gmap string value) !! k = None) as Hother.
  { intros k H1 H2 H3. by rewrite !lookup_insert_ne, lookup_singleton_ne. }
  destruct pre_filled_data as [d|]; [destruct (decide (d = ∅)) as [->|Hd]|].
  - cbn [truthy]. rewrite bool_decide_eq_true_2 by done. cbn [negb].
    do 3 (split; [done|]). split.
    + intros v. rewrite Hother by done. split; [done|].
      by intros (d' & [= <-] & Hd' & _).
    + intros k H1 H2 H3 _. by apply Hother.
  - cbn [truthy]. rewrite bool_decide_eq_false_2 by done. cbn [negb].
    do 3 (split; [by rewrite lookup_insert_ne|]). split.
    + intros v. rewrite lookup_insert_eq. split.
      * intros [= <-]. by exists d.
      * by intros (d' & [= <-] & _ & ->).
    + intros k H1 H2 H3 H4. rewrite lookup_insert_ne by done. by apply Hother.
  - do 3 (split; [done|]). split.
    + intros v. rewrite Hother by done. split; [done|].
      by intros (d' & [=] & _).
    + intros k H1 H2 H3 _. by apply Hother.
Qed.

(** ** The template listing *)

Lemma summary_listable (t : value) :
  listable t = true → ∃ s, TemplateListing.summary t = Ret s ∧ summarised t s.
Proof.
  destruct t as [| | | | | |d]; try discriminate. unfold listable.
  intros Hs. unfold TemplateListing.summary. cbn [get mbind Builtins.outcome_bind].
  destruct (dict_get d "schema" (VList [])) as [| | | |s|l|d'] eqn:Hd;
    try discriminate; simpl; eexists; (split; [reflexivity|]);
    exists d; eexists; rewrite Hd; (split; [done|]); split; reflexivity.
Qed.

Lemma summary_not_listable (t : value) :
  listable t = false → ∃ x, TemplateListing.summary t = Raise x.
Proof.
  destruct t as [| | | | | |d]; try (by eexists). unfold listable.
  intros Hs. unfold TemplateListing.summary. cbn [get mbind Builtins.outcome_bind].
  destruct (dict_get d "schema" (VList [])) as [| | | |s|l|d'] eqn:Hd;
    try discriminate; simpl; by eexists.
Qed.

Lemma comprehension_listable (items : list value) :
  forallb listable items = true →
  ∃ l, Builtins.comprehension TemplateListing.summary items = Ret l
       ∧ Forall2 summarised items l.
Proof.
  induction items as [|t items IH]; [by exists []|]. simpl.
  intros [Ht Hl]%andb_prop. destruct (summary_listable t Ht) as (s & Hs & Hts).
  destruct (IH Hl) as (l & Hrun & Hall). exists (s :: l).
  rewrite Hs. simpl. rewrite Hrun. simpl. split; [done|by constructor].
Qed.

Lemma comprehension_not_listable (items : list value) :
  forallb listable items = false →
  ∃ x, Builtins.comprehension TemplateListing.summary items = Raise x.
Proof.
  induction items as [|t items IH]; [done|]. simpl.
  destruct (listable t) eqn:Ht; simpl.
  - intros Hl. destruct (IH Hl) as (x & Hx).
    destruct (summary_listable t Ht) as (s & -> & _). simpl. rewrite Hx.
    by exists x.
  - intros _. destruct (summary_not_listable t Ht) as (x & ->). by exists x.
Qed.

Lemma list_templates_run (self : DocuSealClient) (e : env) (st : state) :
  let rq := get_request self (base_url self +:+ "/api/templates") in
  TemplateListing.list_templates self e st
  = (Ret match http e (history st) rq with
         | Responded r =>
             if status_code r =? 200 then
               match json r with
               | inr templates =>
                   match Builtins.iterate templates with
                   | Ret items =>
                       match Builtins.comprehension TemplateListing.summary
                               items with
                       | Ret l => l
                       | Raise _ => []
                       end
                   | Raise _ => []
                   end
               | inl _ => []
               end
             else []
         | _ => []
         end,
     record (EvHttp rq (http e (history st) rq)) st).
Proof.
  cbv zeta. unfold TemplateListing.list_templates. unfold_M. simpl.
  destruct (http e (history st) _) as [r|m|n m]; simpl; try done.
  destruct (status_code r =? 200); [|done]. simpl.
  destruct (json r) as [m|v]; simpl; [done|].
  destruct (Builtins.iterate v) as [items|x]; simpl; [|done].
  by destruct (Builtins.comprehension _ items).
Qed.

(** X16.  The client's [list_templates] never raises; it makes one [GET] for
    [<base_url>/api/templates].  A result that is not empty comes from a
    200 answer whose body decodes to something iterable of which every
    element is listable, and holds one summary for each element, in
    order. *)
Theorem list_templates_empty_on_failure (self : DocuSealClient) (e : env)
    (st : state) :
  let rq := get_request self (base_url self +:+ "/api/templates") in
  ∃ l,
    TemplateListing.list_templates self e st
    = (Ret l, record (EvHttp rq (http e (history st) rq)) st)
    ∧ (l ≠ [] →
       ∃ r templates items,
         http e (history st) rq = Responded r
         ∧ status_code r = 200
         ∧ json r = inr templates
         ∧ Builtins.iterate templates = Ret items
         ∧ forallb listable items = true
         ∧ Forall2 summarised items l).
Proof.
  cbv zeta. rewrite list_templates_run. cbv zeta. eexists. split; [reflexivity|].
  destruct (http e (history st) _) as [r|m|n m]; try done.
  destruct (Z.eqb_spec (status_code r) 200) as [Hc|Hc]; [|done].
  destruct (json r) as [m|v] eqn:Hj; [done|].
  destruct (Builtins.iterate v) as [items|x] eqn:Hi; [|done].
  destruct (forallb listable items) eqn:Hl.
  - destruct (comprehension_listable items Hl) as (l & -> & Hall).
    intros _. by exists r, v, items.
  - by destruct (comprehension_not_listable items Hl) as (x & ->).
Qed.

(** X17.  The listing is all or nothing.  On a 200 answer that decodes to a
    list, [list_templates] returns one summary for each element when every
    element is an object whose [schema] is absent or has a length, and the
    empty list as soon as one element is not. *)
Theorem list_templates_all_or_nothing (self : DocuSealClient) (e : env)
    (st : state) (r : response) (items : list value) :
  http e (history st) (get_request self (base_url self +:+ "/api/templates"))
  = Responded r →
  status_code r = 200 →
  json r = inr (VList items) →
  ∃ l,
    (TemplateListing.list_templates self e st).1 = Ret l
    ∧ (forallb listable items = true → Forall2 summarised items l)
    ∧ (forallb listable items = false → l = []).
Proof.
  intros Hres Hc Hj. rewrite list_templates_run. cbv zeta.
  rewrite Hres, Hc, Hj. simpl.
  destruct (forallb listable items) eqn:Hl.
  - destruct (comprehension_listable items Hl) as (l & -> & Hall).
    exists l. by repeat split.
  - destruct (comprehension_not_listable items Hl) as (x & ->).
    exists []. by repeat split.
Qed.

(** Two listable templates, and two of which the second has a [null]
    schema *)
Lemma list_templates_all_or_nothing_witness :
  (TemplateListing.list_templates Samples.client
     (Samples.world
        (Responded
           (Samples.reply 200 ""
              (inr (VList [VDict {[ "id" := VInt 1;
                                    "schema" := VList [VNone; VNone] ]};
                           VDict {[ "id" := VInt 2 ]}]))))
        None)
     Samples.start).1
  = Ret [VDict {[ "id" := VInt 1; "name" := VNone; "description" := VNone;
                  "fields_count" := VInt 2; "created_at" := VNone ]};
         VDict {[ "id" := VInt 2; "name" := VNone; "description" := VNone;
                  "fields_count" := VInt 0; "created_at" := VNone ]}]
  ∧ (TemplateListing.list_templates Samples.client
       (Samples.world
          (Responded
             (Samples.reply 200 ""
                (inr (VList [VDict {[ "id" := VInt 1 ]};
                             VDict {[ "id" := VInt 2;
                                      "schema" := VNone ]}]))))
          None)
       Samples.start).1
    = Ret [].
Proof.
  split.
  - destruct (list_templates_all_or_nothing Samples.client
                (Samples.world
                   (Responded
                      (Samples.reply 200 ""
                         (inr (VList [VDict {[ "id" := VInt 1;
                                               "schema" := VList [VNone; VNone] ]};
                                      VDict {[ "id" := VInt 2 ]}]))))
                   None)
                Samples.start _ _ eq_refl eq_refl eq_refl)
      as (l & Hl & _ & _).
    rewrite Hl. symmetry. exact Hl.
  - destruct (list_templates_all_or_nothing Samples.client
                (Samples.world
                   (Responded
                      (Samples.reply 200 ""
                         (inr (VList [VDict {[ "id" := VInt 1 ]};
                                      VDict {[ "id" := VInt 2;
                                               "schema" := VNone ]}]))))
                   None)
                Samples.start _ _ eq_refl eq_refl eq_refl)
      as (l & Hl & _ & Hnone).
    rewrite Hl. f_equal. apply Hnone. reflexivity.
Defined.

(** ** The endpoints over the listing and the template read *)

(** X18.  The endpoint [list_templates] always answers: with the client's
    list and its length as [count].  A provider that cannot be reached or
    does not answer 200 is shown as [{templates: [], count: 0}], not as a
    fault. *)
Theorem list_templates_endpoint_count (app : Main.App) (e : env) (st : state) :
  let rq := get_request (Main.docuseal_client app)
              (base_url (Main.docuseal_client app) +:+ "/api/templates") in
  ∃ l st',
    TemplateListing.list_templates (Main.docuseal_client app) e st
    = (Ret l, st')
    ∧ Endpoints.list_templates app e st
      = (Ret {[ "templates" := VList l;
                "count" := VInt (Z.of_nat (length l)) ]}, st')
    ∧ ((∀ r, http e (history st) rq = Responded r → status_code r ≠ 200) →
       l = []).
Proof.
  cbv zeta. unfold Endpoints.list_templates.
  unfold try_except at 1. unfold mbind at 1. unfold M_bind at 1.
  rewrite list_templates_run. cbv zeta. do 2 eexists.
  split; [reflexivity|]. split; [reflexivity|].
  intros Hno. destruct (http e (history st) _) as [r|m|n m]; try done.
  destruct (Z.eqb_spec (status_code r) 200) as [Hc|Hc]; [|done].
  by destruct (Hno r eq_refl).
Qed.

Lemma get_template_details_run (app : Main.App) (template_id : string)
    (e : env) (st : state) :
  Main.get_template_details app template_id e st
  = let self := Main.docuseal_client app in
    let rq := get_request self
                (base_url self +:+ "/api/templates/" +:+ template_id) in
    let template := match http e (history st) rq with
                    | Responded r =>
                        if status_code r =? 200 then
                          match json r with
                          | inr body => body
                          | inl _ => VNone
                          end
                        else VNone
                    | _ => VNone
                    end in
    (if truthy template then Ret {[ "template" := template ]}
     else Raise (HTTPException 500
                   ("Failed to get template: "
                    +:+ http_exception_str e 404 "Template not found")),
     record (EvHttp rq (http e (history st) rq)) st).
Proof.
  cbv zeta. unfold Main.get_template_details.
  unfold try_except at 1. unfold mbind at 1. unfold M_bind at 1.
  rewrite get_template_run. cbv zeta.
  by destruct (truthy _).
Qed.

(** X19.  [get_template_details] answers exactly when the provider answers
    200 with a body that decodes to a truthy value, and then with
    [{template: body}].  In every other case, an empty object or list as
    body among them, it raises [HTTPException 500] for [Template not
    found]. *)
Theorem get_template_details_result (app : Main.App) (template_id : string)
    (e : env) (st : state) :
  let self := Main.docuseal_client app in
  let rq := get_request self
              (base_url self +:+ "/api/templates/" +:+ template_id) in
  (∀ answer st',
     Main.get_template_details app template_id e st = (Ret answer, st') ↔
     ∃ r body,
       http e (history st) rq = Responded r
       ∧ status_code r = 200
       ∧ json r = inr body
       ∧ truthy body = true
       ∧ answer = {[ "template" := body ]}
       ∧ st' = record (EvHttp rq (Responded r)) st)
  ∧ ((∀ r body, http e (history st) rq = Responded r → status_code r = 200 →
                json r = inr body → truthy body = false) →
     Main.get_template_details app template_id e st
     = (Raise (HTTPException 500
                 ("Failed to get template: "
                  +:+ http_exception_str e 404 "Template not found")),
        record (EvHttp rq (http e (history st) rq)) st)).
Proof.
  cbv zeta. rewrite get_template_details_run. cbv zeta.
  destruct (http e (history st) _) as [r|m|n m] eqn:Hres;
    [destruct (Z.eqb_spec (status_code r) 200) as [Hc|Hc];
     [destruct (json r) as [m|body] eqn:Hj;
      [|destruct (truthy body) eqn:Ht]|]|..]; cbn [truthy].
  - split; [|done]. intros answer st'. split; [done|].
    intros (r' & body & [= <-] & _ & Hj' & _). congruence.
  - split.
    + intros answer st'. split.
      * intros [= <- <-]. by exists r, body.
      * intros (r' & body' & [= <-] & _ & Hj' & _ & -> & ->).
        rewrite Hj in Hj'. by injection Hj' as <-.
    + intros Hall. specialize (Hall r body eq_refl Hc Hj). congruence.
  - split; [|done]. intros answer st'. split; [done|].
    intros (r' & body' & [= <-] & _ & Hj' & Ht' & _).
    rewrite Hj in Hj'. injection Hj' as <-. congruence.
  - split; [|done]. intros answer st'. split; [done|].
    by intros (r' & body & [= <-] & ? & _).
  - split; [|done]. intros answer st'. split; [done|].
    by intros (r' & body & ? & _).
  - split; [|done]. intros answer st'. split; [done|].
    by intros (r' & body & ? & _).
Qed.

(** ** What the gateway sends *)

Lemma emits_handler (Q : event → Prop) (prefix : string) (x : exn) :
  emits Q 0
    (msg ← str x; raise (HTTPException 500 (prefix +:+ msg))
     : M (gmap string value)).
Proof. emits_auto. Qed.

(** X20.  The endpoints that initiate, read the status, download, read a
    template and list the templates call the provider with the client's
    token, at most once (the download at most twice), and do nothing
    else: no mail session, no clock reading, no queued task. *)
Theorem endpoints_only_call_the_provider (app : Main.App) :
  let Q := authenticated (Main.docuseal_client app) in
  (∀ request_data,
     emits Q 1 (Main.initiate_document_signing app request_data))
  ∧ (∀ submission_id,
       emits Q 1 (Main.get_document_status app submission_id)
       ∧ emits Q 2 (Main.download_document app submission_id))
  ∧ (∀ template_id, emits Q 1 (Main.get_template_details app template_id))
  ∧ emits Q 1 (Endpoints.list_templates app).
Proof.
  cbv zeta. split; [|split; [|split]].
  - intros rq. unfold Main.initiate_document_signing.
    apply (emits_try _ 1 0); [|intros x; apply emits_handler].
    apply (emits_bind _ 1 0); [apply create_submission_emits|].
    intros result. emits_auto.
  - intros id. split.
    + unfold Main.get_document_status.
      apply (emits_try _ 1 0); [|intros x; apply emits_handler].
      apply (emits_bind _ 1 0); [apply get_submission_status_emits|].
      intros status. emits_auto.
    + unfold Main.download_document.
      apply (emits_try _ 2 0); [|intros x; apply emits_handler].
      apply (emits_bind _ 2 0); [apply download_document_emits|].
      intros doc. emits_auto.
  - intros tid. unfold Main.get_template_details.
    apply (emits_try _ 1 0); [|intros x; apply emits_handler].
    apply (emits_bind _ 1 0); [apply get_template_emits|].
    intros template. emits_auto.
  - unfold Endpoints.list_templates.
    apply (emits_try _ 1 0); [|intros x; apply emits_handler].
    apply (emits_bind _ 1 0); [apply list_templates_emits|].
    intros l. emits_auto.
Qed.

(** X21.  A queued task adds at most four events to the history: the status
    read with the client's token, then clock readings and a mail session
    with the notifier's configuration.  It queues no task. *)
Theorem background_task_footprint (app : Main.App) (t : task) :
  emits (λ ev, authenticated (Main.docuseal_client app) ev
               ∨ configured (Main.email_service app) ev) 4
    (Main.run_task app t).
Proof.
  destruct t as [submission_id signer_email]. unfold Main.run_task.
  unfold Main.send_completion_notification.
  apply (emits_try _ 4 0); [|intros x; emits_auto].
  apply (emits_bind _ 1 3).
  - eapply emits_weaken; [|done|apply get_submission_status_emits]. by left.
  - intros status. apply (emits_bind _ 3 0); [|intros b; emits_auto].
    eapply emits_weaken; [|done|apply send_completion_email_emits]. by right.
Qed.

(** ** The download endpoint *)

(** X22.  When the client's [download_document] returns a descriptor, the
    endpoint answers with the submission id and the descriptor's
    [download_url], [filename] ([document_<id>.pdf]) and [size_bytes]; the
    URL is a non-empty string and the size is not negative.  The content
    type of the descriptor is not passed on. *)
Theorem download_endpoint_result (app : Main.App) (submission_id : string)
    (e : env) (st st1 : state) (document : gmap string value) :
  download_document (Main.docuseal_client app) submission_id e st
  = (Ret (Some document), st1) →
  Main.download_document app submission_id e st
  = (Ret {[ "submission_id" := VStr submission_id;
            "download_url" := dict_get document "download_url" VNone;
            "filename" := VStr ("document_" +:+ submission_id +:+ ".pdf");
            "size_bytes" := dict_get document "size_bytes" VNone ]}, st1)
  ∧ (∃ url, document !! "download_url" = Some (VStr url) ∧ url ≠ "")
  ∧ (∃ n, document !! "size_bytes" = Some (VInt n) ∧ 0 ≤ n).
Proof.
  intros Hrun.
  assert (∃ url r,
            url ≠ ""
            ∧ document
              = {[ "download_url" := VStr url;
                   "filename" := VStr ("document_" +:+ submission_id +:+ ".pdf");
                   "size_bytes" := VInt (Z.of_nat (length (content r)));
                   "content_type" :=
                     VStr (header_get r "content-type" "application/pdf") ]})
    as (url & r & Hurl & Hdoc).
  { rewrite download_document_run in Hrun.
    destruct (get_submission_status _ submission_id e st) as [[status|x] st0];
      [|discriminate].
    destruct (negb (eq_str _ _)); [discriminate|].
    destruct (negb (truthy _)) eqn:Ht; [discriminate|].
    destruct (dict_get status "document_url" VNone) as [| | | |url| |];
      try discriminate.
    cbv zeta in Hrun.
    destruct (http e (history st0) _) as [r|m|n m]; try discriminate.
    destruct (status_code r =? 200); [|discriminate].
    injection Hrun as <- _. exists url, r. split; [|done].
    intros ->. discriminate. }
  subst document. split; [|split].
  - unfold Main.download_document.
    unfold try_except at 1. unfold mbind at 1. unfold M_bind at 1.
    rewrite Hrun. reflexivity.
  - by exists url.
  - eexists. split; [reflexivity|lia].
Qed.

(** The completed submission of [Samples.completed_world] *)
Lemma download_endpoint_result_witness :
  (Main.download_document Samples.app "sub_9" Samples.completed_world
     Samples.start).1
  = Ret {[ "submission_id" := VStr "sub_9";
           "download_url" := VStr Samples.document_url;
           "filename" := VStr "document_sub_9.pdf";
           "size_bytes" := VInt 4 ]}.
Proof.
  destruct (download_endpoint_result Samples.app "sub_9"
              Samples.completed_world Samples.start _ _ eq_refl) as [Hrun _].
  rewrite Hrun. reflexivity.
Defined.

(** ** The notifier *)

(** X23.  A document URL that is truthy but not a string (a list or a
    number in the provider's answer) makes [send_completion_email] return
    [False] without opening a mail session: the text part concatenates the
    URL to a string, which fails after the two clock readings. *)
Theorem completion_email_non_string_url (self : EmailService)
    (recipient_email : option string) (submission_id : string)
    (document_url : value) (e : env) (st : state) :
  truthy document_url = true →
  (∀ url, document_url ≠ VStr url) →
  let t1 := clock e (history st) in
  let st1 := record (EvClock t1) st in
  let t2 := clock e (history st1) in
  send_completion_email self recipient_email submission_id document_url e st
  = (Ret false, record (EvClock t2) st1).
Proof.
  intros Ht Hurl. cbv zeta. unfold send_completion_email. unfold_M.
  rewrite Ht. cbn [negb].
  destruct document_url as [| | | |url| |]; try done.
  by destruct (Hurl url).
Qed.

(** A list of URLs where one URL is expected *)
Lemma completion_email_non_string_url_witness :
  send_completion_email Samples.mailer (Some "a@b.com") "sub_9"
    (VList [VStr Samples.document_url]) (Samples.world (TimedOut "") None)
    Samples.start
  = (Ret false,
     {| history := [EvClock Samples.noon; EvClock Samples.noon];
        background_tasks := [] |}).
Proof.
  rewrite (completion_email_non_string_url Samples.mailer (Some "a@b.com")
             "sub_9" (VList [VStr Samples.document_url])
             (Samples.world (TimedOut "") None) Samples.start eq_refl);
    [reflexivity|discriminate].
Defined.

(** X24.  [send_reminder_email] never raises.  It opens one session, with
    the reminder's subject, the notifier's sender address, the given
    recipient and the two composed parts, and returns [True] exactly when
    the transport accepted the message. *)
Theorem reminder_email_delivery (self : EmailService)
    (recipient_email : option string) (submission_id signing_url : string)
    (days_pending : Z) (e : env) (st : state) :
  let ss := session self
              (Some {| msg_subject := reminder_subject;
                       msg_from := from_email self;
                       msg_to := recipient_email;
                       msg_text := reminder_text submission_id signing_url
                                     days_pending;
                       msg_html := reminder_html submission_id signing_url
                                     days_pending |}) in
  ∃ sent,
    send_reminder_email self recipient_email submission_id signing_url
      days_pending e st
    = (Ret sent, record (EvSmtp ss (smtp e (history st) ss)) st)
    ∧ (sent = true ↔ smtp e (history st) ss = None).
Proof.
  cbv zeta. unfold send_reminder_email, _send_email. unfold_M.
  destruct (smtp e (history st) _) as [m|]; simpl; eexists;
    (split; [reflexivity|]); by split.
Qed.

(** X25.  [test_connection] always returns a report, after one session
    without a message.  The report is [healthy], with the host and the port
    and no [error], exactly when the transport accepted the session;
    otherwise its status is [error] and its [error] is the transport's
    message. *)
Theorem test_connection_report (self : EmailService) (e : env) (st : state) :
  let ss := session self None in
  ∃ report,
    test_connection self e st
    = (Ret report, record (EvSmtp ss (smtp e (history st) ss)) st)
    ∧ (report !! "status" = Some (VStr "healthy")
       ↔ smtp e (history st) ss = None)
    ∧ (smtp e (history st) ss = None →
       report !! "smtp_host" = Some (VStr (smtp_host self))
       ∧ report !! "smtp_port" = Some (VInt (smtp_port self))
       ∧ report !! "error" = None)
    ∧ (∀ m, smtp e (history st) ss = Some m →
            report !! "status" = Some (VStr "error")
            ∧ report !! "error" = Some (VStr m)).
Proof.
  cbv zeta. unfold test_connection. unfold_M.
  destruct (smtp e (history st) _) as [m|]; simpl; eexists;
    (split; [reflexivity|]).
  - split; [by split|]. split; [done|]. by intros ? [= <-].
  - split; [by split|]. split; [done|]. by intros ?.
Qed.

(** * The unconfigured client *)

(** The operations send their request whatever the token is. *)
Lemma create_submission_sends (self : DocuSealClient)
    (template_id customer_email customer_name : string)
    (pre_filled_data : option (gmap string value)) (e : env) (st : state) :
  let rq := create_request self template_id customer_email customer_name
              pre_filled_data in
  (create_submission self template_id customer_email customer_name
     pre_filled_data e st).2
  = record (EvHttp rq (http e (history st) rq)) st.
Proof.
  cbv zeta. unfold create_submission. run_M.
  destruct (http e (history st) _) as [r|m|n m]; simpl; [|done..].
  destruct (status_code r =? 201); simpl; [|done].
  destruct (json r) as [m|v]; simpl; [done|].
  destruct (get v "id" VNone) as [a|x]; simpl; [|by destruct x].
  destruct (get v "submitters" _) as [b|x]; simpl; [|by destruct x].
  destruct (subscript0 b) as [c|x]; simpl; [|by destruct x].
  by destruct (get c "embed_src" VNone) as [d|x]; simpl; [|destruct x].
Qed.

(** The result of [create_submission] is a function of the provider's
    answer. *)
Lemma create_submission_decided (self : DocuSealClient)
    (template_id customer_email customer_name : string)
    (pre_filled_data : option (gmap string value)) (e1 : env) (st1 : state)
    (e2 : env) (st2 : state) :
  let rq := create_request self template_id customer_email customer_name
              pre_filled_data in
  http e1 (history st1) rq = http e2 (history st2) rq →
  (create_submission self template_id customer_email customer_name
     pre_filled_data e1 st1).1
  = (create_submission self template_id customer_email customer_name
       pre_filled_data e2 st2).1.
Proof.
  cbv zeta. intros Hsame. unfold create_submission. run_M. rewrite Hsame.
  destruct (http e2 (history st2) _) as [r|m|n m]; simpl; [|done..].
  destruct (status_code r =? 201); simpl; [|done].
  destruct (json r) as [m|v]; simpl; [done|].
  destruct (get v "id" VNone) as [a|x] eqn:Ha; simpl;
    [|by apply get_raises in Ha as (n & m & ->)].
  destruct (get v "submitters" _) as [b|x] eqn:Hb; simpl;
    [|by apply get_raises in Hb as (n & m & ->)].
  destruct (subscript0 b) as [c|x] eqn:Hc; simpl;
    [|by apply subscript0_raises in Hc as (n & m & ->)].
  destruct (get c "embed_src" VNone) as [d|x] eqn:Hd; simpl; [done|].
  by apply get_raises in Hd as (n & m & ->).
Qed.

Lemma get_submission_status_sends (self : DocuSealClient)
    (submission_id : string) (e : env) (st : state) :
  let rq := status_request self submission_id in
  (get_submission_status self submission_id e st).2
  = record (EvHttp rq (http e (history st) rq)) st.
Proof.
  cbv zeta. unfold get_submission_status. run_M.
  destruct (http e (history st) _) as [r|m|n m]; simpl; [|done..].
  destruct (status_code r =? 200); simpl; [|done].
  destruct (json r) as [m|v]; simpl; [done|].
  repeat match goal with
         | |- context [match ?o with Ret _ => _ | Raise _ => _ end] =>
             match o with
             | get _ _ _ => destruct o as [?|[]]; simpl; try done
             | subscript0 _ => destruct o as [?|[]]; simpl; try done
             end
         end.
Qed.

Lemma get_submission_status_decided (self : DocuSealClient)
    (submission_id : string) (e1 : env) (st1 : state) (e2 : env)
    (st2 : state) :
  let rq := status_request self submission_id in
  http e1 (history st1) rq = http e2 (history st2) rq →
  (get_submission_status self submission_id e1 st1).1
  = (get_submission_status self submission_id e2 st2).1.
Proof.
  cbv zeta. intros Hsame. unfold get_submission_status. run_M. rewrite Hsame.
  destruct (http e2 (history st2) _) as [r|m|n m]; simpl; [|done..].
  destruct (status_code r =? 200); simpl; [|done].
  destruct (json r) as [m|v]; simpl; [done|].
  repeat match goal with
         | |- context [match ?o with Ret _ => _ | Raise _ => _ end] =>
             match o with
             | get _ _ _ =>
                 let H := fresh in
                 destruct o as [?|?] eqn:H; simpl;
                   [|by apply get_raises in H as (? & ? & ->)]
             | subscript0 _ =>
                 let H := fresh in
                 destruct o as [?|?] eqn:H; simpl;
                   [|by apply subscript0_raises in H as (? & ? & ->)]
             end
         end.
  done.
Qed.

Lemma cancel_submission_run (self : DocuSealClient) (submission_id : string)
    (e : env) (st : state) :
  let rq := {| req_method := DELETE;
               req_url := base_url self +:+ "/api/submissions/"
                          +:+ submission_id;
               req_headers := auth_headers self;
               req_json := None;
               req_timeout := timeout self |} in
  cancel_submission self submission_id e st
  = (Ret match http e (history st) rq with
         | Responded r => status_code r =? 200
         | _ => false
         end,
     record (EvHttp rq (http e (history st) rq)) st).
Proof.
  cbv zeta. unfold cancel_submission. run_M.
  by destruct (http e (history st) _) as [r|m|n m].
Qed.

(** C6, amended.  A client built with an empty token is built without an
    exception ([init] is total), and [health_check] on it returns
    [{status: error, error: API token not configured}] with no network call:
    the state is unchanged.  No other operation has such a guard.  Each
    sends its request with the empty token in the [X-Auth-Token] header, and
    its result is decided by the provider's answer:
    - [create_submission] always returns, after one call; two runs that get
      the same answer return the same result; the result is the success with
      the id and the signing URL on a 201 answer with a first submitter, and
      [{success: False, error: ...}] with [HTTP <status>: <body>] on another
      status, [DocuSeal API timeout] on a timeout and the transport's
      message on a transport failure;
    - [get_submission_status] makes one call; two runs that get the same
      answer end alike; it returns the five fields on a well-formed 200
      answer and raises [HTTPException] with the provider's status code on
      another status, 504 on a timeout and 500 on a transport failure;
    - [download_document] returns the descriptor when that status read gives
      a completed submission with a document URL and the fetch of the URL,
      sent with the empty token too, answers 200, and [None] otherwise;
    - [get_template] returns the decoded body of a 200 answer and [None]
      otherwise; [list_templates] returns the summaries of a 200 answer and
      [[]] otherwise; [cancel_submission] returns [True] exactly on a 200
      answer. *)
Theorem empty_token_guarded_by_health_check_only (base : string) :
  let self := init base "" in
  (∀ e st,
     health_check self e st
     = (Ret {[ "status" := VStr "error";
               "error" := VStr "API token not configured" ]}, st))
  ∧ (∀ template_id customer_email customer_name pre_filled_data,
       let rq := create_request self template_id customer_email customer_name
                   pre_filled_data in
       let run := create_submission self template_id customer_email
                    customer_name pre_filled_data in
       req_headers rq !! "X-Auth-Token" = Some ""
       ∧ (∀ e st, ∃ d,
            run e st = (Ret d, record (EvHttp rq (http e (history st) rq)) st))
       ∧ (∀ e1 st1 e2 st2,
            http e1 (history st1) rq = http e2 (history st2) rq →
            (run e1 st1).1 = (run e2 st2).1)
       ∧ (∀ e st r body entry,
            http e (history st) rq = Responded r →
            status_code r = 201 →
            json r = inr (VDict body) →
            first_submitter body = Some entry →
            (run e st).1
            = Ret {[ "success" := VBool true;
                     "submission_id" := dict_get body "id" VNone;
                     "signing_url" := dict_get entry "embed_src" VNone;
                     "email_sent" := VBool true ]})
       ∧ (∀ e st r,
            http e (history st) rq = Responded r →
            status_code r ≠ 201 →
            (run e st).1
            = Ret {[ "success" := VBool false;
                     "error" := VStr ("HTTP " +:+ pretty (status_code r)
                                      +:+ ": " +:+ text r) ]})
       ∧ (∀ e st m,
            http e (history st) rq = TimedOut m →
            (run e st).1
            = Ret {[ "success" := VBool false;
                     "error" := VStr "DocuSeal API timeout" ]})
       ∧ (∀ e st n m,
            http e (history st) rq = Failed n m →
            (run e st).1
            = Ret {[ "success" := VBool false; "error" := VStr m ]}))
  ∧ (∀ submission_id,
       let rq := status_request self submission_id in
       let run := get_submission_status self submission_id in
       req_headers rq !! "X-Auth-Token" = Some ""
       ∧ (∀ e st,
            (run e st).2 = record (EvHttp rq (http e (history st) rq)) st)
       ∧ (∀ e1 st1 e2 st2,
            http e1 (history st1) rq = http e2 (history st2) rq →
            (run e1 st1).1 = (run e2 st2).1)
       ∧ (∀ e st r body document submitter template,
            http e (history st) rq = Responded r →
            status_code r = 200 →
            json r = inr (VDict body) →
            first_entry body "documents" = Some document →
            first_entry body "submitters" = Some submitter →
            dict_get body "template" (VDict ∅) = VDict template →
            (run e st).1
            = Ret {[ "status" := dict_get body "status" VNone;
                     "completed_at" := dict_get body "completed_at" VNone;
                     "document_url" := dict_get document "url" VNone;
                     "signer_email" := dict_get submitter "email" VNone;
                     "template_name" := dict_get template "name" VNone ]})
       ∧ (∀ e st r,
            http e (history st) rq = Responded r →
            status_code r ≠ 200 →
            (run e st).1
            = Raise (HTTPException (status_code r)
                       ("DocuSeal API error: " +:+ text r)))
       ∧ (∀ e st m,
            http e (history st) rq = TimedOut m →
            (run e st).1 = Raise (HTTPException 504 "DocuSeal API timeout"))
       ∧ (∀ e st n m,
            http e (history st) rq = Failed n m →
            (run e st).1
            = Raise (HTTPException 500 ("DocuSeal error: " +:+ m))))
  ∧ (∀ submission_id e st,
       download_document self submission_id e st
       = match get_submission_status self submission_id e st with
         | (Raise _, st1) => (Ret None, st1)
         | (Ret status, st1) =>
             if negb (eq_str (dict_get status "status" VNone) "completed") then
               (Ret None, st1)
             else if negb (truthy (dict_get status "document_url" VNone)) then
               (Ret None, st1)
             else
               match dict_get status "document_url" VNone with
               | VStr url =>
                   let rq := {| req_method := GET;
                                req_url := url;
                                req_headers := {[ "X-Auth-Token" := "" ]};
                                req_json := None;
                                req_timeout := timeout self |} in
                   let st2 := record (EvHttp rq (http e (history st1) rq)) st1 in
                   match http e (history st1) rq with
                   | Responded r =>
                       if status_code r =? 200 then
                         (Ret (Some
                            {[ "download_url" := VStr url;
                               "filename" :=
                                 VStr ("document_" +:+ submission_id
                                       +:+ ".pdf");
                               "size_bytes" :=
                                 VInt (Z.of_nat (length (content r)));
                               "content_type" :=
                                 VStr (header_get r "content-type"
                                         "application/pdf") ]}), st2)
                       else (Ret None, st2)
                   | _ => (Ret None, st2)
                   end
               | _ => (Ret None, st1)
               end
         end)
  ∧ (∀ template_id e st,
       let rq := {| req_method := GET;
                    req_url := base_url self +:+ "/api/templates/"
                               +:+ template_id;
                    req_headers := {[ "X-Auth-Token" := "" ]};
                    req_json := None;
                    req_timeout := timeout self |} in
       get_template self template_id e st
       = (Ret match http e (history st) rq with
              | Responded r =>
                  if status_code r =? 200 then
                    match json r with
                    | inr body => body
                    | inl _ => VNone
                    end
                  else VNone
              | _ => VNone
              end,
          record (EvHttp rq (http e (history st) rq)) st))
  ∧ (∀ e st,
       let rq := {| req_method := GET;
                    req_url := base_url self +:+ "/api/templates";
                    req_headers := {[ "X-Auth-Token" := "" ]};
                    req_json := None;
                    req_timeout := timeout self |} in
       TemplateListing.list_templates self e st
       = (Ret match http e (history st) rq with
              | Responded r =>
                  if status_code r =? 200 then
                    match json r with
                    | inr templates =>
                        match Builtins.iterate templates with
                        | Ret items =>
                            match Builtins.comprehension
                                    TemplateListing.summary items with
                            | Ret l => l
                            | Raise _ => []
                            end
                        | Raise _ => []
                        end
                    | inl _ => []
                    end
                  else []
              | _ => []
              end,
          record (EvHttp rq (http e (history st) rq)) st))
  ∧ (∀ submission_id e st,
       let rq := {| req_method := DELETE;
                    req_url := base_url self +:+ "/api/submissions/"
                               +:+ submission_id;
                    req_headers := {[ "X-Auth-Token" := "" ]};
                    req_json := None;
                    req_timeout := timeout self |} in
       cancel_submission self submission_id e st
       = (Ret match http e (history st) rq with
              | Responded r => status_code r =? 200
              | _ => false
              end,
          record (EvHttp rq (http e (history st) rq)) st)).
Proof.
  cbv zeta. split; [done|]. split; [|split; [|split; [|split; [|split]]]].
  - intros tid em nm pre. split; [done|]. split; [|split; [|split]].
    + intros e st.
      destruct (create_submission_never_raises (init base "") tid em nm pre
                  e st) as (d & st' & Hrun).
      exists d. rewrite <- (create_submission_sends (init base "")).
      by rewrite Hrun.
    + apply create_submission_decided.
    + intros e st r body entry Hres Hc Hj Hf.
      by rewrite (create_submission_created _ _ _ _ _ _ _ r body entry).
    + split; [|split].
      * intros e st r Hres Hc%Z.eqb_neq. unfold create_submission. run_M.
        by rewrite Hres, Hc.
      * intros e st m Hres. unfold create_submission. run_M. by rewrite Hres.
      * intros e st n m Hres. unfold create_submission. run_M. by rewrite Hres.
  - intros id. split; [done|].
    split; [apply get_submission_status_sends|].
    split; [apply get_submission_status_decided|]. split; [|split; [|split]].
    + intros e st r body document submitter template Hres Hc Hj Hd Hs Ht.
      unfold get_submission_status. unfold_M. simpl.
      rewrite Hres, Hc, Hj. simpl. unfold first_entry in Hd, Hs.
      destruct (dict_get body "documents" _)
        as [| | | | |[|[| | | | | |d] l]|]; try discriminate.
      injection Hd as ->. simpl.
      destruct (dict_get body "submitters" _)
        as [| | | | |[|[| | | | | |d] l']|]; try discriminate.
      injection Hs as ->. simpl. by rewrite Ht.
    + intros e st r Hres Hc%Z.eqb_neq.
      pose proof (get_submission_status_fault (init base "") id e st) as Hf.
      cbv zeta in Hf. rewrite Hres, Hc in Hf. by rewrite Hf.
    + intros e st m Hres.
      pose proof (get_submission_status_fault (init base "") id e st) as Hf.
      cbv zeta in Hf. rewrite Hres in Hf. by rewrite Hf.
    + intros e st n m Hres.
      pose proof (get_submission_status_fault (init base "") id e st) as Hf.
      cbv zeta in Hf. rewrite Hres in Hf. by rewrite Hf.
  - intros id e st. apply download_document_run.
  - intros tid e st. apply get_template_run.
  - intros e st. apply list_templates_run.
  - intros id e st. apply cancel_submission_run.
Qed.
